(** * homework_bot: the polling loop of [homework.py]

    A shallow embedding of the Telegram bot that polls the homework
    review API, and the properties of its validator, formatter, notifier
    and poll loop.

    Python strings are kept as their UTF-8 bytes ([string]); equality,
    emptiness and containment of substrings agree with Python's on
    code points.  JSON numbers are the integers. *)

From Stdlib Require Import String Ascii List ZArith Bool Lia DecimalString.
From ExtLib Require Import Structures.Monad.
Import ListNotations MonadNotation.
Local Open Scope string_scope.
Local Open Scope monad_scope.

(** ** Python values decoded from JSON *)

Set Warnings "-register-all".

Inductive json : Type :=
| JNull
| JBool (b : bool)
| JInt (n : Z)
| JStr (s : string)
| JList (items : list json)
| JDict (fields : list (string * json)).

(** Truth value of an object, as tested by [if x:], [not x], [x or y]. *)
Definition py_bool (v : json) : bool :=
  match v with
  | JNull => false
  | JBool b => b
  | JInt n => negb (n =? 0)%Z
  | JStr s => negb (s =? "")
  | JList items => match items with [] => false | _ :: _ => true end
  | JDict fields => match fields with [] => false | _ :: _ => true end
  end.

(** [x or y] *)
Definition py_or (x y : json) : json := if py_bool x then x else y.

(** Name of the type of a value, as it appears in interpreter messages. *)
Definition type_name (v : json) : string :=
  match v with
  | JNull => "NoneType"
  | JBool _ => "bool"
  | JInt _ => "int"
  | JStr _ => "str"
  | JList _ => "list"
  | JDict _ => "dict"
  end.

(** A dict is kept as the list of its items; a key is looked up from the
    front. *)
Fixpoint lookup {V : Type} (key : string) (items : list (string * V)) : option V :=
  match items with
  | [] => None
  | (k, v) :: rest => if k =? key then Some v else lookup key rest
  end.

(** Value under a key, [JNull] (Python's [None]) when the key is absent:
    what [d.get(key)] returns. *)
Definition dict_get (fields : list (string * json)) (key : string) : json :=
  match lookup key fields with
  | Some v => v
  | None => JNull
  end.

(** [str1 != x] for a string and an arbitrary value. *)
Definition str_ne (s : string) (x : json) : bool :=
  match x with
  | JStr t => negb (s =? t)
  | _ => true
  end.

(** [needle in haystack] on strings. *)
Fixpoint contains (needle haystack : string) : bool :=
  prefix needle haystack ||
  match haystack with
  | EmptyString => false
  | String _ rest => contains needle rest
  end.

Definition dquote : string := String "034" EmptyString.
Definition squote : string := String "039" EmptyString.

(** ** Exceptions, log records and the observable trace *)

Inductive exn_class : Type :=
| HttpCodeIsNot200
| RequestException
| JSONDecodeError
| TelegramError
| TypeError
| KeyError
| ValueError
| AttributeError
| NameError.

Definition exn_class_eqb (a b : exn_class) : bool :=
  match a, b with
  | HttpCodeIsNot200, HttpCodeIsNot200
  | RequestException, RequestException
  | JSONDecodeError, JSONDecodeError
  | TelegramError, TelegramError
  | TypeError, TypeError
  | KeyError, KeyError
  | ValueError, ValueError
  | AttributeError, AttributeError
  | NameError, NameError => true
  | _, _ => false
  end.

(** An exception object: its class and the text [str(error)] gives. *)
Record exn : Type := Exn { exn_cls : exn_class; exn_str : string }.

(** [KeyError(msg)]: [str()] of a [KeyError] is the [repr] of its
    argument, which for a text free of quotes and escapes is the text in
    single quotes. *)
Definition KeyError_of (msg : string) : exn :=
  Exn KeyError (squote ++ msg ++ squote).

Inductive level : Type := DEBUG | INFO | ERROR | CRITICAL.

Inductive event : Type :=
| Log (lvl : level) (text : string)
| HttpGet (url : string) (from_date : json) (authorization : string)
| BotSend (chat_id : option string) (text : string)
| Sleep (seconds : Z).

Inductive result (A : Type) : Type :=
| Returns (a : A)
| Raises (e : exn).
Arguments Returns {A} a.
Arguments Raises {A} e.

(** A call: the events it emits, then its value or the exception it
    raises. *)
Definition Eff (A : Type) : Type := list event * result A.

Definition eff_ret {A : Type} (a : A) : Eff A := ([], Returns a).

Definition eff_bind {A B : Type} (m : Eff A) (k : A -> Eff B) : Eff B :=
  match m with
  | (t, Returns a) => let (t', r) := k a in ((t ++ t')%list, r)
  | (t, Raises e) => (t, Raises e)
  end.

#[export] Instance Monad_Eff : Monad Eff :=
  {| ret := @eff_ret; bind := @eff_bind |}.

Definition raise {A : Type} (e : exn) : Eff A := ([], Raises e).
Definition emit (ev : event) : Eff unit := ([ev], Returns tt).
Definition logger (lvl : level) (text : string) : Eff unit := emit (Log lvl text).

(** [try: body  except cls as e: handler e] *)
Definition try_except {A : Type} (body : Eff A) (cls : exn_class)
    (handler : exn -> Eff A) : Eff A :=
  match body with
  | (t, Raises e) =>
      if exn_class_eqb (exn_cls e) cls
      then let (t', r) := handler e in ((t ++ t')%list, r)
      else (t, Raises e)
  | done => done
  end.

(** ** The collaborators: one poll cycle's outside world *)

(** What [requests.get] and [response.json()] do for a request. *)
Inductive http_outcome : Type :=
| RequestFails (reason : string)
| Responds (status_code : Z) (body : option json).

(** What [bot.send_message] does: the chat client reports every failed
    delivery by raising [telegram.error.TelegramError]. *)
Inductive delivery : Type :=
| Delivered
| DeliveryFails (reason : string).

Record World : Type := {
  http : json -> http_outcome;
  chat : string -> delivery
}.

(** ** Reading a trace *)

(** Texts handed to the chat client, one per call of the notifier. *)
Fixpoint sent (t : list event) : list string :=
  match t with
  | [] => []
  | BotSend _ text :: rest => text :: sent rest
  | _ :: rest => sent rest
  end.

(** Cursors of the API requests made. *)
Fixpoint cursors (t : list event) : list json :=
  match t with
  | [] => []
  | HttpGet _ from_date _ :: rest => from_date :: cursors rest
  | _ :: rest => cursors rest
  end.

(** A trace with log records and API requests only: nothing is sent to
    the chat and nothing sleeps. *)
Fixpoint quiet (t : list event) : bool :=
  match t with
  | [] => true
  | (Log _ _ | HttpGet _ _ _) :: rest => quiet rest
  | (BotSend _ _ | Sleep _) :: _ => false
  end.

(** Durations slept. *)
Fixpoint slept (t : list event) : list Z :=
  match t with
  | [] => []
  | Sleep seconds :: rest => seconds :: slept rest
  | _ :: rest => slept rest
  end.

(** Records logged at a level. *)
Fixpoint logged (lvl : level) (t : list event) : list string :=
  match t with
  | [] => []
  | Log l text :: rest =>
      match l, lvl with
      | DEBUG, DEBUG | INFO, INFO | ERROR, ERROR | CRITICAL, CRITICAL =>
          text :: logged lvl rest
      | _, _ => logged lvl rest
      end
  | _ :: rest => logged lvl rest
  end.

(** The API requests made: endpoint, cursor and authorization header. *)
Fixpoint requested (t : list event) : list (string * json * string) :=
  match t with
  | [] => []
  | HttpGet url from_date authorization :: rest =>
      (url, from_date, authorization) :: requested rest
  | _ :: rest => requested rest
  end.

(** ** Sample inputs *)

Definition homework_record (name status : string) : json :=
  JDict [("homework_name", JStr name); ("status", JStr status)].

Definition api_response (current_date : Z) (homeworks : list json) : json :=
  JDict [("current_date", JInt current_date); ("homeworks", JList homeworks)].

(** A cycle in which the API answers 200 with [body] and the chat
    delivers. *)
Definition answering (body : json) : World :=
  {| http := fun _ => Responds 200 (Some body); chat := fun _ => Delivered |}.

(** A cycle in which the API answers with another status code. *)
Definition refusing (status_code : Z) : World :=
  {| http := fun _ => Responds status_code None; chat := fun _ => Delivered |}.

(** A cycle in which the request itself fails. *)
Definition unreachable (reason : string) : World :=
  {| http := fun _ => RequestFails reason; chat := fun _ => Delivered |}.

(** A cycle in which the API answers with another status code and the
    chat rejects every message. *)
Definition refusing_unheard (status_code : Z) (reason : string) : World :=
  {| http := fun _ => Responds status_code None;
     chat := fun _ => DeliveryFails reason |}.

(** A configuration with the three secrets present, and a start time. *)
Definition practicum_token : option string := Some "practicum-token".
Definition telegram_token : option string :=
  Some "1234567890:AAF-sample-telegram-token".
Definition telegram_chat_id : option string := Some "1234567".
Definition start_time : Z := 1690000000.

(** The homework "hw1", approved. *)
Definition hw1_approved : json := homework_record "hw1" "approved".

(** The same homework under review, and with a status the table does
    not have. *)
Definition hw1_reviewing : json := homework_record "hw1" "reviewing".
Definition hw1_graded : json := homework_record "hw1" "graded".

(** A [requests] whose [JSONDecodeError] cannot be built from the text
    alone, and a client library that accepts the sample token. *)
Definition decode_raises (msg : string) : exn :=
  Exn TypeError
    ("JSONDecodeError.__init__() missing 2 required positional arguments: "
     ++ String "039" "doc" ++ String "039" " and "
     ++ String "039" "pos" ++ String "039" "").

Definition client_accepts (token : option string) : result unit := Returns tt.

(** A client library that finds the token malformed. *)
Definition client_rejects (token : option string) : result unit :=
  Raises (Exn TelegramError "Invalid token").

(** The samples interpolate strings only, so [repr] of a container is
    never consulted on them; the runs below fix it to an ellipsis. *)
Definition repr_elided (v : json) : string := "...".

Section Homework.

(** Module-level configuration read from the environment. *)
Variables PRACTICUM_TOKEN TELEGRAM_TOKEN TELEGRAM_CHAT_ID : option string.

(** Python's built-in [repr] of lists and dicts. *)
Variable py_repr : json -> string.

(** The exception that leaves the statement
    [raise requests.JSONDecodeError(msg)] under the installed [requests]:
    the error built from [msg] where the constructor takes one
    argument, the [TypeError] of the constructor where it wants more. *)
Variable raise_JSONDecodeError : string -> exn.

(** What [telegram.Bot(token=...)] does with the token: it builds the
    client, or raises, as the library does on a token it finds
    malformed. *)
Variable telegram_Bot : option string -> result unit.

(** [str(x)], as an f-string interpolates it. *)
Definition py_str (v : json) : string :=
  match v with
  | JNull => "None"
  | JBool true => "True"
  | JBool false => "False"
  | JInt n => NilZero.string_of_int (Z.to_int n)
  | JStr s => s
  | JList _ | JDict _ => py_repr v
  end.

Definition env_str (v : option string) : string :=
  match v with Some s => s | None => "None" end.

Definition env_bool (v : option string) : bool :=
  match v with Some s => negb (s =? "") | None => false end.

Definition RETRY_PERIOD : Z := 600.
Definition ENDPOINT : string :=
  "https://practicum.yandex.ru/api/user_api/homework_statuses/".
(** The value of the one header, [Authorization]. *)
Definition HEADERS : string := "OAuth " ++ env_str PRACTICUM_TOKEN.
Definition HOMEWORK_VERDICTS : list (string * string) :=
  [ ("approved", "Работа проверена: ревьюеру всё понравилось. Ура!");
    ("reviewing", "Работа взята на проверку ревьюером.");
    ("rejected", "Работа проверена: у ревьюера есть замечания.") ].

(** [x.get(key)] *)
Definition py_get (x : json) (key : string) : Eff json :=
  match x with
  | JDict fields =>
      ret (dict_get fields key)
  | _ =>
      raise (Exn AttributeError
               (squote ++ type_name x ++ squote
                ++ " object has no attribute " ++ squote ++ "get" ++ squote))
  end.

(** [x[key]] with a string key. *)
Definition py_getitem (x : json) (key : string) : Eff json :=
  match x with
  | JDict fields =>
      match lookup key fields with
      | Some v => ret v
      | None => raise (KeyError_of key)
      end
  | JStr _ => raise (Exn TypeError "string indices must be integers")
  | JList _ =>
      raise (Exn TypeError "list indices must be integers or slices, not str")
  | _ =>
      raise (Exn TypeError
               (squote ++ type_name x ++ squote ++ " object is not subscriptable"))
  end.

(** [x in HOMEWORK_VERDICTS]: the key is hashed first. *)
Definition in_verdicts (x : json) : Eff bool :=
  match x with
  | JStr s => ret (match lookup s HOMEWORK_VERDICTS with Some _ => true | None => false end)
  | JList _ | JDict _ =>
      raise (Exn TypeError ("unhashable type: " ++ squote ++ type_name x ++ squote))
  | _ => ret false
  end.

(** [HOMEWORK_VERDICTS[x]] *)
Definition verdict_of (x : json) : Eff string :=
  match x with
  | JStr s =>
      match lookup s HOMEWORK_VERDICTS with
      | Some text => ret text
      | None => raise (KeyError_of s)
      end
  | JList _ | JDict _ =>
      raise (Exn TypeError ("unhashable type: " ++ squote ++ type_name x ++ squote))
  | _ => raise (Exn KeyError (py_str x))
  end.

Definition check_tokens : Eff bool :=
  logger DEBUG "Запущена проверка необходимых переменных окружения" ;;
  ret (env_bool PRACTICUM_TOKEN && env_bool TELEGRAM_CHAT_ID
       && env_bool TELEGRAM_TOKEN).

(** [bot.send_message(chat_id=..., text=...)] *)
Definition bot_send_message (bot : string -> delivery) (text : string) : Eff unit :=
  emit (BotSend TELEGRAM_CHAT_ID text) ;;
  match bot text with
  | Delivered => ret tt
  | DeliveryFails reason => raise (Exn TelegramError reason)
  end.

Definition send_message (bot : string -> delivery) (message : string) : Eff unit :=
  try_except
    (logger DEBUG "Запущена отправка сообщения в Telegram" ;;
     bot_send_message bot message ;;
     logger INFO ("Сообщение " ++ message ++ " отправлено на №"
                  ++ env_str TELEGRAM_CHAT_ID))
    TelegramError
    (fun e =>
       logger ERROR ("Неудачная отправка сообщения: " ++ message
                     ++ " ошибка " ++ exn_str e)).

(** [requests.get(...)], the status test and [response.json()].  A body
    that is not JSON makes [response.json()] raise the library's
    [JSONDecodeError]; the handler catches it and runs its own [raise]
    statement. *)
Definition get_api_answer (w : World) (timestamp : json) : Eff json :=
  try_except
    (logger DEBUG "Отправка запроса к API" ;;
     emit (HttpGet ENDPOINT timestamp HEADERS) ;;
     match http w timestamp with
     | RequestFails reason => raise (Exn RequestException reason)
     | Responds status_code body =>
         if negb (status_code =? 200)%Z
         then raise (Exn HttpCodeIsNot200 "Неподходящий http ответ")
         else
           logger DEBUG "Получен ответ от API, переход к десериализации" ;;
           match body with
           | Some decoded => ret decoded
           | None => raise (Exn JSONDecodeError "Expecting value")
           end
     end)
    JSONDecodeError
    (fun _ => raise (raise_JSONDecodeError "Ошибка при десериализации JSON")).

(** Returns the first homework, or [JNull] (Python's [None]) when the
    list is empty. *)
Definition check_response (response : json) : Eff json :=
  logger DEBUG "Проверка ответа API" ;;
  match response with
  | JDict _ =>
      homeworks <- py_get response "homeworks" ;;
      current_date <- py_get response "current_date" ;;
      if negb (py_bool current_date)
      then raise (KeyError_of "В ответе API нехватает ключа current_date")
      else
        logger DEBUG "Извлечение домашки из ответа API" ;;
        match homeworks with
        | JList items =>
            match items with
            | first :: _ =>
                logger DEBUG "Успешная проверка ответа API, домашка есть =)" ;;
                ret first
            | [] =>
                logger DEBUG "Успешная проверка ответа API, домашки нет =(" ;;
                ret JNull
            end
        | _ =>
            raise (Exn TypeError
                     ("Неверный ответ API, в словаре нет ключа homeworks или "
                      ++ "homeworks не является list()"))
        end
  | _ => raise (Exn TypeError "Ответ API не является словарем")
  end.

Definition status_message (homework_name : json) (verdict : string) : string :=
  "Изменился статус проверки работы " ++ dquote ++ py_str homework_name
  ++ dquote ++ ". " ++ verdict.

Definition parse_status (homework : json) : Eff string :=
  logger DEBUG "Начало работы parse_status()" ;;
  homework_name <- py_get homework "homework_name" ;;
  homework_status <- py_get homework "status" ;;
  if py_bool homework_name && py_bool homework_status
  then
    logger DEBUG "В словаре-домашки правильные ключи." ;;
    known <- in_verdicts homework_status ;;
    verdict <- (if known : bool
                then logger DEBUG "В словаре-домашки подходящий статус" ;;
                     verdict_of homework_status
                else raise (Exn ValueError "Неожиданный статус домашки")) ;;
    let message := status_message homework_name verdict in
    logger INFO message ;;
    ret message
  else raise (KeyError_of "Неверные ключи в словаре домашки").

(** ** The poll loop *)

(** Local variables of [main] that live across cycles; [JNull] is
    Python's [None]. *)
Record PollState : Type := {
  last_check_time : json;
  last_homework_status : json;
  last_telegram_message : json
}.

Definition set_last_check_time (v : json) (st : PollState) : PollState :=
  {| last_check_time := v;
     last_homework_status := last_homework_status st;
     last_telegram_message := last_telegram_message st |}.

Definition set_last_homework_status (v : json) (st : PollState) : PollState :=
  {| last_check_time := last_check_time st;
     last_homework_status := v;
     last_telegram_message := last_telegram_message st |}.

Definition set_last_telegram_message (v : json) (st : PollState) : PollState :=
  {| last_check_time := last_check_time st;
     last_homework_status := last_homework_status st;
     last_telegram_message := v |}.

(** Code of [main]'s loop: it reads and assigns the locals, and an
    assignment made before an exception is raised stays made. *)
Definition Loop (A : Type) : Type :=
  PollState -> list event * PollState * result A.

Definition loop_ret {A : Type} (a : A) : Loop A :=
  fun st => ([], st, Returns a).

Definition loop_bind {A B : Type} (m : Loop A) (k : A -> Loop B) : Loop B :=
  fun st =>
    match m st with
    | (t, st', Returns a) =>
        let '(t', st'', r) := k a st' in ((t ++ t')%list, st'', r)
    | (t, st', Raises e) => (t, st', Raises e)
    end.

#[export] Instance Monad_Loop : Monad Loop :=
  {| ret := @loop_ret; bind := @loop_bind |}.

Definition call {A : Type} (c : Eff A) : Loop A :=
  fun st => (fst c, st, snd c).

Definition locals : Loop PollState := fun st => ([], st, Returns st).

Definition assign (f : PollState -> PollState) : Loop unit :=
  fun st => ([], f st, Returns tt).

(** [try: body  except Exception as error: handler error  finally: final] *)
Definition try_except_finally (body : Loop unit) (handler : exn -> Loop unit)
    (final : Loop unit) : Loop unit :=
  fun st =>
    let '(t1, st1, r1) := body st in
    let '(t2, st2, r2) :=
      match r1 with
      | Returns a => ([], st1, Returns a)
      | Raises error => handler error st1
      end in
    let '(t3, st3, r3) := final st2 in
    ((t1 ++ t2 ++ t3)%list, st3,
     match r3 with Raises e => Raises e | Returns _ => r2 end).

(** [f'Сбой в работе программы: {error}'] *)
Definition diagnostic (error : exn) : string :=
  "Сбой в работе программы: " ++ exn_str error.

(** The three blocks of the body of [while True:], with [w] the outside
    world during this cycle and [timestamp] the start time of the
    process. *)
Definition try_block (timestamp : Z) (w : World) : Loop unit :=
  call (logger DEBUG "Начало цикла работы бота.") ;;
  st <- locals ;;
  response <- call (get_api_answer w
                      (py_or (last_check_time st) (JInt timestamp))) ;;
  homework <- call (check_response response) ;;
  (if py_bool homework
   then
     current_date <- call (py_getitem response "current_date") ;;
     assign (set_last_check_time current_date) ;;
     message <- call (parse_status homework) ;;
     st <- locals ;;
     if str_ne message (last_homework_status st)
     then
       call (logger DEBUG "Новая домашка, отправляем сообщение") ;;
       status <- call (py_getitem homework "status") ;;
       assign (set_last_homework_status status) ;;
       call (send_message (chat w) message)
     else call (logger INFO "Старая домашка, идем спать.")
   else ret tt) ;;
  call (logger INFO "Нету домашки, идем спать.").

Definition except_block (w : World) (error : exn) : Loop unit :=
  call (logger ERROR (exn_str error)) ;;
  let message := diagnostic error in
  st <- locals ;;
  if str_ne message (last_telegram_message st)
  then
    call (send_message (chat w) message) ;;
    assign (set_last_telegram_message (JStr message))
  else ret tt.

Definition finally_block : Loop unit :=
  call (emit (Sleep RETRY_PERIOD)) ;;
  call (logger DEBUG "Конец цикла работы бота. Прошло 10 минут.").

Definition poll_cycle (timestamp : Z) (w : World) : Loop unit :=
  try_except_finally (try_block timestamp w) (except_block w) finally_block.

(** [while True:] run against the worlds of its first cycles; an
    exception that leaves a cycle leaves the loop. *)
Fixpoint poll_loop (timestamp : Z) (schedule : list World) : Loop unit :=
  match schedule with
  | [] => ret tt
  | w :: rest => poll_cycle timestamp w ;; poll_loop timestamp rest
  end.

Definition initial_state : PollState :=
  {| last_check_time := JNull;
     last_homework_status := JNull;
     last_telegram_message := JNull |}.

(** [bot = telegram.Bot(token=TELEGRAM_TOKEN)]; the client it builds is
    the [chat] of each cycle's world. *)
Definition new_bot : Eff unit := ([], telegram_Bot TELEGRAM_TOKEN).

(** [main()], with [now] the value of [int(time.time())] at start. *)
Definition main (now : Z) (schedule : list World) : Eff unit :=
  ready <- check_tokens ;;
  if negb ready
  then
    let msg := "Отсутствуют переменные окружения" in
    logger CRITICAL msg ;;
    raise (Exn NameError msg)
  else
    new_bot ;;
    let '(t, _, r) := poll_loop now schedule initial_state in (t, r).

(** ** Vocabulary of the statements *)

(** The locals after the cycles of a schedule. *)
Fixpoint state_after (timestamp : Z) (schedule : list World) (st : PollState)
    : PollState :=
  match schedule with
  | [] => st
  | w :: rest =>
      state_after timestamp rest (snd (fst (poll_cycle timestamp w st)))
  end.

(** A schedule in which no cycle's try block raises: every cycle is a
    success or finds no work. *)
Fixpoint calm (timestamp : Z) (schedule : list World) (st : PollState) : Prop :=
  match schedule with
  | [] => True
  | w :: rest =>
      snd (try_block timestamp w st) = Returns tt
      /\ calm timestamp rest (snd (fst (poll_cycle timestamp w st)))
  end.

(** What [last_homework_status] can hold: [None], or a verdict code of
    the table. *)
Definition none_or_code (v : json) : Prop :=
  v = JNull
  \/ exists code text, v = JStr code /\ lookup code HOMEWORK_VERDICTS = Some text.

(** The exceptions of the validator and of the formatter. *)
Definition missing_cursor : exn :=
  KeyError_of "В ответе API нехватает ключа current_date".

Definition invalid_shape : exn :=
  Exn TypeError
    ("Неверный ответ API, в словаре нет ключа homeworks или "
     ++ "homeworks не является list()").

Definition incomplete_record : exn :=
  KeyError_of "Неверные ключи в словаре домашки".

Definition unknown_verdict : exn :=
  Exn ValueError "Неожиданный статус домашки".

(** The exceptions of the API client and of the start-up check. *)
Definition bad_status : exn :=
  Exn HttpCodeIsNot200 "Неподходящий http ответ".

Definition undecodable_body : exn :=
  raise_JSONDecodeError "Ошибка при десериализации JSON".

Definition not_a_mapping : exn :=
  Exn TypeError "Ответ API не является словарем".

Definition missing_environment : exn :=
  Exn NameError "Отсутствуют переменные окружения".

(** All three secrets are set and non-empty. *)
Definition tokens_ready : bool :=
  env_bool PRACTICUM_TOKEN && env_bool TELEGRAM_CHAT_ID
  && env_bool TELEGRAM_TOKEN.

(** ** Traces of compound code *)

(** Runs the sequencing of calls, and nothing else. *)
Ltac run_eff :=
  cbv beta iota delta
    [bind ret Monad_Eff eff_bind eff_ret Monad_Loop loop_bind loop_ret
     call locals assign raise emit logger try_except exn_cls
     exn_class_eqb];
  cbn [fst snd app].

Lemma sent_app (t u : list event) : sent (t ++ u) = (sent t ++ sent u)%list.
Proof.
  induction t as [|ev t IH]; [reflexivity|].
  destruct ev; simpl; rewrite IH; reflexivity.
Qed.

Lemma cursors_app (t u : list event) :
  cursors (t ++ u) = (cursors t ++ cursors u)%list.
Proof.
  induction t as [|ev t IH]; [reflexivity|].
  destruct ev; simpl; rewrite IH; reflexivity.
Qed.

Lemma slept_app (t u : list event) : slept (t ++ u) = (slept t ++ slept u)%list.
Proof.
  induction t as [|ev t IH]; [reflexivity|].
  destruct ev; simpl; rewrite IH; reflexivity.
Qed.

(** ** The notifier *)

(** [send_message] makes one call to the chat client and returns, with
    an INFO record after a delivery and an ERROR record after a
    failure. *)
Lemma send_message_unfold (bot : string -> delivery) (message : string) :
  send_message bot message =
  match bot message with
  | Delivered =>
      ([Log DEBUG "Запущена отправка сообщения в Telegram";
        BotSend TELEGRAM_CHAT_ID message;
        Log INFO ("Сообщение " ++ message ++ " отправлено на №"
                  ++ env_str TELEGRAM_CHAT_ID)],
       Returns tt)
  | DeliveryFails reason =>
      ([Log DEBUG "Запущена отправка сообщения в Telegram";
        BotSend TELEGRAM_CHAT_ID message;
        Log ERROR ("Неудачная отправка сообщения: " ++ message
                   ++ " ошибка " ++ reason)],
       Returns tt)
  end.
Proof.
  unfold send_message, bot_send_message. simpl.
  destruct (bot message); reflexivity.
Qed.

(** ** The validator *)

Lemma check_response_dict (fields : list (string * json)) :
  snd (check_response (JDict fields)) =
  if py_bool (dict_get fields "current_date")
  then
    match dict_get fields "homeworks" with
    | JList (first :: _) => Returns first
    | JList [] => Returns JNull
    | _ => Raises invalid_shape
    end
  else Raises missing_cursor.
Proof.
  unfold check_response. simpl.
  destruct (py_bool (dict_get fields "current_date")); simpl; [|reflexivity].
  destruct (dict_get fields "homeworks") as [| | | |[|first rest]|];
    reflexivity.
Qed.

(** ** The formatter *)

Lemma prefix_app (a b : string) : prefix a (a ++ b) = true.
Proof.
  induction a as [|c a IH]; simpl.
  - destruct b; reflexivity.
  - destruct (ascii_dec c c) as [_|ne]; [exact IH | congruence].
Qed.

Lemma contains_here (a b : string) : contains a (a ++ b) = true.
Proof.
  destruct a as [|c a].
  - destruct b; reflexivity.
  - change (contains (String c a) (String c a ++ b))
      with (prefix (String c a) (String c a ++ b)
            || contains (String c a) (a ++ b)).
    rewrite prefix_app. reflexivity.
Qed.

Lemma contains_later (needle before rest : string) :
  contains needle rest = true -> contains needle (before ++ rest) = true.
Proof.
  intros H. induction before as [|c before IH]; simpl; [exact H|].
  rewrite IH. apply orb_true_r.
Qed.

Lemma status_message_has_name (homework_name : json) (verdict : string) :
  contains (py_str homework_name) (status_message homework_name verdict) = true.
Proof.
  unfold status_message.
  apply contains_later. apply contains_later. apply contains_here.
Qed.

Lemma contains_self (a : string) : contains a a = true.
Proof.
  destruct a as [|c a]; [reflexivity|].
  simpl. destruct (ascii_dec c c) as [_|ne]; [|congruence].
  replace (prefix a a) with true; [reflexivity|].
  clear. induction a as [|c a IH]; [reflexivity|].
  simpl. destruct (ascii_dec c c) as [_|ne]; [exact IH | congruence].
Qed.

Lemma status_message_has_verdict (homework_name : json) (verdict : string) :
  contains verdict (status_message homework_name verdict) = true.
Proof.
  unfold status_message.
  do 5 apply contains_later. apply contains_self.
Qed.

(** [parse_status] on a mapping whose status is a string. *)
Lemma parse_status_str (fields : list (string * json)) (status : string) :
  dict_get fields "status" = JStr status ->
  snd (parse_status (JDict fields)) =
  if py_bool (dict_get fields "homework_name") && negb (status =? "")
  then
    match lookup status HOMEWORK_VERDICTS with
    | Some text =>
        Returns (status_message (dict_get fields "homework_name") text)
    | None => Raises unknown_verdict
    end
  else Raises incomplete_record.
Proof.
  intros Hs. unfold parse_status, py_get. run_eff. rewrite Hs.
  change (py_bool (JStr status)) with (negb (status =? "")).
  destruct (py_bool (dict_get fields "homework_name") && negb (status =? ""));
    [|reflexivity].
  unfold in_verdicts, verdict_of. run_eff.
  destruct (lookup status HOMEWORK_VERDICTS); reflexivity.
Qed.

(** ** One cycle *)

Lemma quiet_sent (t : list event) : quiet t = true -> sent t = [].
Proof.
  induction t as [|ev t IH]; [reflexivity|].
  destruct ev; simpl; intros H; try discriminate; exact (IH H).
Qed.

Lemma quiet_slept (t : list event) : quiet t = true -> slept t = [].
Proof.
  induction t as [|ev t IH]; [reflexivity|].
  destruct ev; simpl; intros H; try discriminate; exact (IH H).
Qed.

Lemma get_api_answer_quiet (w : World) (cursor : json) :
  quiet (fst (get_api_answer w cursor)) = true.
Proof.
  unfold get_api_answer. run_eff.
  destruct (http w cursor) as [reason|status_code [decoded|]];
    [reflexivity| |]; destruct (negb (status_code =? 200)%Z); reflexivity.
Qed.

Lemma get_api_answer_cursors (w : World) (cursor : json) :
  cursors (fst (get_api_answer w cursor)) = [cursor].
Proof.
  unfold get_api_answer. run_eff.
  destruct (http w cursor) as [reason|status_code [decoded|]];
    [reflexivity| |]; destruct (negb (status_code =? 200)%Z); reflexivity.
Qed.

Lemma check_response_quiet (response : json) :
  quiet (fst (check_response response)) = true.
Proof.
  destruct response as [| | | | |fields]; try reflexivity.
  unfold check_response, py_get. run_eff.
  destruct (negb (py_bool (dict_get fields "current_date"))); [reflexivity|].
  destruct (dict_get fields "homeworks") as [| | | |[|first rest]|];
    reflexivity.
Qed.

Lemma check_response_cursors (response : json) :
  cursors (fst (check_response response)) = [].
Proof.
  destruct response as [| | | | |fields]; try reflexivity.
  unfold check_response, py_get. run_eff.
  destruct (negb (py_bool (dict_get fields "current_date"))); [reflexivity|].
  destruct (dict_get fields "homeworks") as [| | | |[|first rest]|];
    reflexivity.
Qed.

Lemma py_getitem_silent (x : json) (key : string) :
  fst (py_getitem x key) = [].
Proof.
  destruct x as [| | | | |fields]; try reflexivity.
  unfold py_getitem. destruct (lookup key fields); reflexivity.
Qed.

Lemma parse_status_trace (homework : json) :
  quiet (fst (parse_status homework)) = true
  /\ cursors (fst (parse_status homework)) = [].
Proof.
  destruct homework as [| | | | |fields]; try (split; reflexivity).
  unfold parse_status, py_get. run_eff.
  destruct (py_bool (dict_get fields "homework_name")
            && py_bool (dict_get fields "status")); [|split; reflexivity].
  unfold in_verdicts, verdict_of.
  destruct (dict_get fields "status") as [| | |s| |]; run_eff;
    try (split; reflexivity).
  destruct (lookup s HOMEWORK_VERDICTS); split; reflexivity.
Qed.

Lemma send_message_trace (bot : string -> delivery) (message : string) :
  snd (send_message bot message) = Returns tt
  /\ sent (fst (send_message bot message)) = [message]
  /\ cursors (fst (send_message bot message)) = []
  /\ slept (fst (send_message bot message)) = [].
Proof.
  rewrite send_message_unfold. destruct (bot message); repeat split.
Qed.

Ltac case_call :=
  match goal with
  | |- context [match snd ?c with Returns _ => _ | Raises _ => _ end] =>
      let r := fresh "r" in
      let E := fresh "E" in
      destruct (snd c) as [r|r] eqn:E
  | |- context [if ?b then _ else _] =>
      let E := fresh "E" in destruct b eqn:E
  end.

Ltac walk := run_eff; repeat (case_call; run_eff).

Lemma try_block_keeps_error_text (timestamp : Z) (w : World) (st : PollState) :
  last_telegram_message (snd (fst (try_block timestamp w st))) =
  last_telegram_message st.
Proof.
  unfold try_block. walk; reflexivity.
Qed.

Lemma get_api_answer_sent (w : World) (cursor : json) :
  sent (fst (get_api_answer w cursor)) = [].
Proof. apply quiet_sent, get_api_answer_quiet. Qed.

Lemma get_api_answer_slept (w : World) (cursor : json) :
  slept (fst (get_api_answer w cursor)) = [].
Proof. apply quiet_slept, get_api_answer_quiet. Qed.

Lemma check_response_sent (response : json) :
  sent (fst (check_response response)) = [].
Proof. apply quiet_sent, check_response_quiet. Qed.

Lemma check_response_slept (response : json) :
  slept (fst (check_response response)) = [].
Proof. apply quiet_slept, check_response_quiet. Qed.

Lemma parse_status_sent (homework : json) :
  sent (fst (parse_status homework)) = [].
Proof. apply quiet_sent, parse_status_trace. Qed.

Lemma parse_status_slept (homework : json) :
  slept (fst (parse_status homework)) = [].
Proof. apply quiet_slept, parse_status_trace. Qed.

Lemma parse_status_cursors (homework : json) :
  cursors (fst (parse_status homework)) = [].
Proof. apply parse_status_trace. Qed.

Lemma send_message_sent (bot : string -> delivery) (message : string) :
  sent (fst (send_message bot message)) = [message].
Proof. apply send_message_trace. Qed.

Lemma send_message_cursors (bot : string -> delivery) (message : string) :
  cursors (fst (send_message bot message)) = [].
Proof. apply send_message_trace. Qed.

Lemma send_message_slept (bot : string -> delivery) (message : string) :
  slept (fst (send_message bot message)) = [].
Proof. apply send_message_trace. Qed.

Lemma send_message_snd (bot : string -> delivery) (message : string) :
  snd (send_message bot message) = Returns tt.
Proof. apply send_message_trace. Qed.

Create Rewrite HintDb trace.

Hint Rewrite sent_app cursors_app slept_app py_getitem_silent
  get_api_answer_sent get_api_answer_slept get_api_answer_cursors
  check_response_sent check_response_slept check_response_cursors
  parse_status_sent parse_status_slept parse_status_cursors
  send_message_sent send_message_cursors send_message_slept
  send_message_snd app_nil_r : trace.

(** Closes a goal about the events of a block once its calls have been
    told apart. *)
Ltac read_trace :=
  repeat (progress (cbn [fst snd sent cursors slept app];
                    autorewrite with trace));
  try reflexivity.

Ltac absurd_call :=
  match goal with
  | H : snd (send_message _ _) = Raises _ |- _ =>
      rewrite send_message_snd in H; discriminate H
  | H : Returns _ = Raises _ |- _ => discriminate H
  | H : Raises _ = Returns _ |- _ => discriminate H
  end.

Lemma try_block_raises_unsent (timestamp : Z) (w : World) (st : PollState)
    (e : exn) :
  snd (try_block timestamp w st) = Raises e ->
  sent (fst (fst (try_block timestamp w st))) = [].
Proof.
  unfold try_block. walk; intros H; try absurd_call; read_trace.
Qed.

Lemma try_block_cursors (timestamp : Z) (w : World) (st : PollState) :
  cursors (fst (fst (try_block timestamp w st))) =
  [py_or (last_check_time st) (JInt timestamp)].
Proof.
  unfold try_block. walk; read_trace.
Qed.

Lemma try_block_slept (timestamp : Z) (w : World) (st : PollState) :
  slept (fst (fst (try_block timestamp w st))) = [].
Proof.
  unfold try_block. walk; read_trace.
Qed.

Lemma str_ne_false (s : string) (x : json) :
  str_ne s x = false <-> x = JStr s.
Proof.
  destruct x as [| | |t| |]; simpl; try (split; [discriminate|congruence]).
  split.
  - intros H. apply negb_false_iff, String.eqb_eq in H. congruence.
  - intros H. injection H as ->. rewrite String.eqb_refl. reflexivity.
Qed.

Lemma except_block_unfold (w : World) (e : exn) (st : PollState) :
  except_block w e st =
  if str_ne (diagnostic e) (last_telegram_message st)
  then (Log ERROR (exn_str e) :: fst (send_message (chat w) (diagnostic e)),
        set_last_telegram_message (JStr (diagnostic e)) st,
        Returns tt)
  else ([Log ERROR (exn_str e)], st, Returns tt).
Proof.
  unfold except_block. run_eff.
  destruct (str_ne (diagnostic e) (last_telegram_message st)); run_eff;
    [|reflexivity].
  rewrite send_message_snd, app_nil_r. reflexivity.
Qed.

(** After the handler the last error text is the diagnostic of the
    error handled, whether or not it was sent. *)
Lemma except_block_error_text (w : World) (e : exn) (st : PollState) :
  last_telegram_message (snd (fst (except_block w e st))) =
  JStr (diagnostic e).
Proof.
  rewrite except_block_unfold.
  destruct (str_ne (diagnostic e) (last_telegram_message st)) eqn:E;
    [reflexivity|].
  apply str_ne_false in E. exact E.
Qed.

Lemma poll_cycle_unfold (timestamp : Z) (w : World) (st : PollState) :
  poll_cycle timestamp w st =
  let '(t1, st1, r1) := try_block timestamp w st in
  let '(t2, st2, r2) :=
    match r1 with
    | Returns a => ([], st1, Returns a)
    | Raises error => except_block w error st1
    end in
  ((t1 ++ t2
    ++ [Sleep RETRY_PERIOD;
        Log DEBUG "Конец цикла работы бота. Прошло 10 минут."])%list,
   st2, r2).
Proof.
  unfold poll_cycle, try_except_finally.
  destruct (try_block timestamp w st) as [[t1 st1] r1].
  destruct r1 as [a|error].
  - reflexivity.
  - destruct (except_block w error st1) as [[t2 st2] r2]. reflexivity.
Qed.

(** No exception leaves a cycle. *)
Lemma poll_cycle_returns (timestamp : Z) (w : World) (st : PollState) :
  snd (poll_cycle timestamp w st) = Returns tt.
Proof.
  rewrite poll_cycle_unfold.
  destruct (try_block timestamp w st) as [[t1 st1] [[]|error]]; [reflexivity|].
  rewrite except_block_unfold.
  destruct (str_ne _ _); reflexivity.
Qed.

Lemma poll_cycle_slept (timestamp : Z) (w : World) (st : PollState) :
  slept (fst (fst (poll_cycle timestamp w st))) = [RETRY_PERIOD].
Proof.
  rewrite poll_cycle_unfold.
  pose proof (try_block_slept timestamp w st) as H1.
  destruct (try_block timestamp w st) as [[t1 st1] [[]|error]];
    cbn [fst snd] in *.
  - read_trace. rewrite H1. reflexivity.
  - rewrite except_block_unfold.
    destruct (str_ne _ _); cbn [fst snd]; read_trace; rewrite H1; reflexivity.
Qed.

Lemma poll_cycle_cursors (timestamp : Z) (w : World) (st : PollState) :
  cursors (fst (fst (poll_cycle timestamp w st))) =
  [py_or (last_check_time st) (JInt timestamp)].
Proof.
  rewrite poll_cycle_unfold.
  pose proof (try_block_cursors timestamp w st) as H1.
  destruct (try_block timestamp w st) as [[t1 st1] [[]|error]];
    cbn [fst snd] in *.
  - read_trace. rewrite H1. reflexivity.
  - rewrite except_block_unfold.
    destruct (str_ne _ _); cbn [fst snd]; read_trace; rewrite H1; reflexivity.
Qed.

(** A cycle whose try block raises: the notifier is called once if the
    diagnostic differs from the last error text, not at all otherwise;
    either way the diagnostic becomes the last error text. *)
Lemma poll_cycle_error (timestamp : Z) (w : World) (st : PollState) (e : exn) :
  snd (try_block timestamp w st) = Raises e ->
  sent (fst (fst (poll_cycle timestamp w st))) =
    (if str_ne (diagnostic e) (last_telegram_message st)
     then [diagnostic e] else [])
  /\ last_telegram_message (snd (fst (poll_cycle timestamp w st))) =
     JStr (diagnostic e).
Proof.
  intros He. rewrite poll_cycle_unfold.
  pose proof (try_block_raises_unsent timestamp w st e He) as H1.
  pose proof (try_block_keeps_error_text timestamp w st) as H2.
  destruct (try_block timestamp w st) as [[t1 st1] r1]; cbn [fst snd] in *.
  subst r1.
  pose proof (except_block_error_text w e st1) as H3.
  rewrite except_block_unfold in *. rewrite H2 in *.
  destruct (str_ne (diagnostic e) (last_telegram_message st));
    cbn [fst snd] in *; (split; [|exact H3]); read_trace;
    rewrite H1; reflexivity.
Qed.

(** A cycle whose try block returns: the handler does not run. *)
Lemma poll_cycle_calm (timestamp : Z) (w : World) (st : PollState) :
  snd (try_block timestamp w st) = Returns tt ->
  snd (fst (poll_cycle timestamp w st)) = snd (fst (try_block timestamp w st))
  /\ sent (fst (fst (poll_cycle timestamp w st))) =
     sent (fst (fst (try_block timestamp w st))).
Proof.
  intros Hr. rewrite poll_cycle_unfold.
  destruct (try_block timestamp w st) as [[t1 st1] r1]; cbn [fst snd] in *.
  subst r1. cbn [fst snd]. split; [reflexivity|]. read_trace.
Qed.

(** ** The cursor *)

Lemma get_api_answer_ok (w : World) (cursor response : json) :
  http w cursor = Responds 200 (Some response) ->
  snd (get_api_answer w cursor) = Returns response.
Proof.
  intros H. unfold get_api_answer. run_eff. rewrite H. reflexivity.
Qed.

(** Once the validator has returned a homework, the cursor is assigned
    before anything else can go wrong. *)
Lemma try_block_advances (timestamp : Z) (w : World) (st : PollState)
    (response homework current_date : json) :
  http w (py_or (last_check_time st) (JInt timestamp))
    = Responds 200 (Some response) ->
  snd (check_response response) = Returns homework ->
  py_bool homework = true ->
  snd (py_getitem response "current_date") = Returns current_date ->
  last_check_time (snd (fst (try_block timestamp w st))) = current_date.
Proof.
  intros Hhttp Hcheck Htrue Hdate. apply get_api_answer_ok in Hhttp.
  unfold try_block. run_eff. rewrite Hhttp. run_eff. rewrite Hcheck. run_eff.
  rewrite Htrue. run_eff. rewrite Hdate. walk; reflexivity.
Qed.

Lemma except_block_keeps_cursor (w : World) (e : exn) (st : PollState) :
  last_check_time (snd (fst (except_block w e st))) = last_check_time st.
Proof.
  rewrite except_block_unfold. destruct (str_ne _ _); reflexivity.
Qed.

Lemma poll_cycle_cursor_after (timestamp : Z) (w : World) (st : PollState) :
  last_check_time (snd (fst (poll_cycle timestamp w st))) =
  last_check_time (snd (fst (try_block timestamp w st))).
Proof.
  rewrite poll_cycle_unfold.
  destruct (try_block timestamp w st) as [[t1 st1] [[]|error]];
    cbn [fst snd]; [reflexivity|].
  pose proof (except_block_keeps_cursor w error st1) as H.
  destruct (except_block w error st1) as [[t2 st2] r2]. exact H.
Qed.

(** Cursor advance, as the code has it: when a cycle's response is a
    mapping whose [current_date] is truthy and whose [homeworks] is a
    list with a truthy first element, the cycle leaves [last_check_time]
    equal to that [current_date], and the next cycle's request carries
    it as the cursor.  The prior locals, and with them the last notified
    verdict, are arbitrary, as are the fate of the formatting and of the
    delivery. *)
Theorem cursor_advance (timestamp : Z) (w : World) (st : PollState)
    (fields : list (string * json)) (current_date first : json)
    (rest : list json) :
  http w (py_or (last_check_time st) (JInt timestamp))
    = Responds 200 (Some (JDict fields)) ->
  lookup "current_date" fields = Some current_date ->
  py_bool current_date = true ->
  lookup "homeworks" fields = Some (JList (first :: rest)) ->
  py_bool first = true ->
  let st' := snd (fst (poll_cycle timestamp w st)) in
  last_check_time st' = current_date
  /\ forall next : World,
       cursors (fst (fst (poll_cycle timestamp next st'))) = [current_date].
Proof.
  intros Hhttp Hdate Htrue Hworks Hfirst st'.
  assert (Hcd : dict_get fields "current_date" = current_date)
    by (unfold dict_get; rewrite Hdate; reflexivity).
  assert (Hst : last_check_time st' = current_date).
  { unfold st'. rewrite poll_cycle_cursor_after.
    apply try_block_advances with (response := JDict fields) (homework := first).
    - exact Hhttp.
    - rewrite check_response_dict, Hcd, Htrue.
      unfold dict_get. rewrite Hworks. reflexivity.
    - exact Hfirst.
    - unfold py_getitem. rewrite Hdate. reflexivity. }
  split; [exact Hst|].
  intros next. rewrite poll_cycle_cursors, Hst.
  unfold py_or. rewrite Htrue. reflexivity.
Qed.

(** ** Claims on the validator, the formatter and the notifier *)

(** The cursor check fails exactly on a falsy [current_date]: a key that
    is absent, or one that holds 0, an empty value, [False] or [None]. *)
Lemma missing_cursor_iff (fields : list (string * json)) :
  snd (check_response (JDict fields)) = Raises missing_cursor
  <-> py_bool (dict_get fields "current_date") = false.
Proof.
  rewrite check_response_dict.
  destruct (py_bool (dict_get fields "current_date")).
  - split; [|discriminate].
    destruct (dict_get fields "homeworks") as [| | | |[|first rest]|];
      discriminate.
  - split; reflexivity.
Qed.

(** A cycle that finds an empty [homeworks] list under a truthy
    [current_date] sends nothing and assigns nothing. *)
Lemma no_work_cycle_inert (timestamp : Z) (w : World) (st : PollState)
    (fields : list (string * json)) :
  http w (py_or (last_check_time st) (JInt timestamp))
    = Responds 200 (Some (JDict fields)) ->
  py_bool (dict_get fields "current_date") = true ->
  dict_get fields "homeworks" = JList [] ->
  snd (check_response (JDict fields)) = Returns JNull
  /\ sent (fst (fst (poll_cycle timestamp w st))) = []
  /\ snd (fst (poll_cycle timestamp w st)) = st.
Proof.
  intros Hhttp Hdate Hworks.
  assert (Hcheck : snd (check_response (JDict fields)) = Returns JNull)
    by (rewrite check_response_dict, Hdate, Hworks; reflexivity).
  split; [exact Hcheck|].
  apply get_api_answer_ok in Hhttp.
  assert (Htry : snd (try_block timestamp w st) = Returns tt
                 /\ snd (fst (try_block timestamp w st)) = st
                 /\ sent (fst (fst (try_block timestamp w st))) = []).
  { unfold try_block. run_eff. rewrite Hhttp. run_eff. rewrite Hcheck.
    run_eff. cbn [py_bool]. run_eff. repeat split. read_trace. }
  destruct Htry as (Hret & Hst & Hsent).
  destruct (poll_cycle_calm timestamp w st Hret) as [Hst' Hsent'].
  rewrite Hsent', Hst'. split; assumption.
Qed.

(** C6, as amended. [homeworks] is required: on a mapping that passes
    the cursor check, the validator fails with the shape error when the
    key [homeworks] is absent, and it raises that error exactly when the
    value under [homeworks] is not a list, an absent key and [None]
    included. *)
Theorem homeworks_required (fields : list (string * json)) :
  py_bool (dict_get fields "current_date") = true ->
  (lookup "homeworks" fields = None ->
   snd (check_response (JDict fields)) = Raises invalid_shape)
  /\ (snd (check_response (JDict fields)) = Raises invalid_shape
      <-> forall items, dict_get fields "homeworks" <> JList items).
Proof.
  intros Hdate. rewrite check_response_dict, Hdate. split.
  - intros Habsent. unfold dict_get. rewrite Habsent. reflexivity.
  - destruct (dict_get fields "homeworks") as [| | | |[|first rest]|];
      split; intros H; try reflexivity; try discriminate;
      try (intros items; discriminate);
      exfalso; eapply H; reflexivity.
Qed.

(** C4. Status formatter: on a record whose [homework_name] and
    [status] are strings, the name non-empty, a status that is a key of
    the verdict table gives a message containing the name and the exact
    text of the table; a non-empty status outside the table raises the
    unknown-verdict [ValueError], and no default text is substituted. *)
Theorem parse_status_correct (fields : list (string * json))
    (name status : string) :
  lookup "homework_name" fields = Some (JStr name) ->
  name <> "" ->
  lookup "status" fields = Some (JStr status) ->
  (forall text, lookup status HOMEWORK_VERDICTS = Some text ->
     exists message,
       snd (parse_status (JDict fields)) = Returns message
       /\ contains name message = true
       /\ contains text message = true)
  /\ (status <> "" -> lookup status HOMEWORK_VERDICTS = None ->
      snd (parse_status (JDict fields)) = Raises unknown_verdict).
Proof.
  intros Hname Hnonempty Hstatus.
  assert (Hn : dict_get fields "homework_name" = JStr name)
    by (unfold dict_get; rewrite Hname; reflexivity).
  assert (Hs : dict_get fields "status" = JStr status)
    by (unfold dict_get; rewrite Hstatus; reflexivity).
  assert (Hname_true : py_bool (JStr name) = true).
  { simpl. apply negb_true_iff, String.eqb_neq, Hnonempty. }
  rewrite (parse_status_str fields status Hs), Hn, Hname_true. split.
  - intros text Htext.
    assert (Hstatus_true : negb (status =? "") = true).
    { apply negb_true_iff, String.eqb_neq. intros ->. discriminate Htext. }
    rewrite Hstatus_true, Htext. cbn [andb].
    exists (status_message (JStr name) text). split; [reflexivity|]. split.
    + exact (status_message_has_name (JStr name) text).
    + apply status_message_has_verdict.
  - intros Hstatus_nonempty Hunknown.
    assert (Hstatus_true : negb (status =? "") = true)
      by (apply negb_true_iff, String.eqb_neq, Hstatus_nonempty).
    rewrite Hstatus_true, Hunknown. reflexivity.
Qed.

(** C8. The notifier never raises: whatever the chat client does with
    the message, [send_message] calls it once and returns; a failed
    delivery leaves one ERROR record and a delivery leaves none; and no
    cycle of the loop ends with an exception, whatever its deliveries. *)
Theorem send_message_never_raises (bot : string -> delivery) (message : string) :
  snd (send_message bot message) = Returns tt
  /\ sent (fst (send_message bot message)) = [message]
  /\ logged ERROR (fst (send_message bot message)) =
     match bot message with
     | Delivered => []
     | DeliveryFails reason =>
         ["Неудачная отправка сообщения: " ++ message ++ " ошибка " ++ reason]
     end
  /\ forall timestamp w st, snd (poll_cycle timestamp w st) = Returns tt.
Proof.
  rewrite send_message_unfold.
  destruct (bot message); repeat split; apply poll_cycle_returns.
Qed.

(** ** The loop *)

Lemma poll_loop_cons (timestamp : Z) (w : World) (rest : list World)
    (st : PollState) :
  poll_loop timestamp (w :: rest) st =
  let st' := snd (fst (poll_cycle timestamp w st)) in
  ((fst (fst (poll_cycle timestamp w st))
    ++ fst (fst (poll_loop timestamp rest st')))%list,
   snd (fst (poll_loop timestamp rest st')),
   snd (poll_loop timestamp rest st')).
Proof.
  cbn [poll_loop]. run_eff.
  pose proof (poll_cycle_returns timestamp w st) as Hret.
  destruct (poll_cycle timestamp w st) as [[t st'] r]. cbn [fst snd] in *.
  subst r. destruct (poll_loop timestamp rest st') as [[t' st''] r'].
  reflexivity.
Qed.

Lemma poll_loop_state (timestamp : Z) (schedule : list World) (st : PollState) :
  snd (fst (poll_loop timestamp schedule st)) = state_after timestamp schedule st.
Proof.
  revert st. induction schedule as [|w rest IH]; intros st; [reflexivity|].
  rewrite poll_loop_cons. cbn [fst snd state_after]. apply IH.
Qed.

Lemma poll_loop_returns (timestamp : Z) (schedule : list World) (st : PollState) :
  snd (poll_loop timestamp schedule st) = Returns tt.
Proof.
  revert st. induction schedule as [|w rest IH]; intros st; [reflexivity|].
  rewrite poll_loop_cons. cbn [fst snd]. apply IH.
Qed.

Lemma poll_loop_slept (timestamp : Z) (schedule : list World) (st : PollState) :
  slept (fst (fst (poll_loop timestamp schedule st))) =
  repeat RETRY_PERIOD (length schedule).
Proof.
  revert st. induction schedule as [|w rest IH]; intros st; [reflexivity|].
  rewrite poll_loop_cons. cbn [fst snd]. rewrite slept_app, poll_cycle_slept, IH.
  reflexivity.
Qed.

Lemma poll_loop_requests (timestamp : Z) (schedule : list World) (st : PollState) :
  length (cursors (fst (fst (poll_loop timestamp schedule st)))) =
  length schedule.
Proof.
  revert st. induction schedule as [|w rest IH]; intros st; [reflexivity|].
  rewrite poll_loop_cons. cbn [fst snd].
  rewrite cursors_app, poll_cycle_cursors. cbn [app length]. rewrite IH.
  reflexivity.
Qed.

Lemma poll_cycle_ends_asleep (timestamp : Z) (w : World) (st : PollState) :
  exists t,
    fst (fst (poll_cycle timestamp w st)) =
      (t ++ [Sleep RETRY_PERIOD;
             Log DEBUG "Конец цикла работы бота. Прошло 10 минут."])%list
    /\ slept t = [].
Proof.
  pose proof (poll_cycle_slept timestamp w st) as Hslept.
  rewrite poll_cycle_unfold in *.
  destruct (try_block timestamp w st) as [[t1 st1] r1].
  destruct (match r1 with
            | Returns a => ([], st1, Returns a)
            | Raises error => except_block w error st1
            end) as [[t2 st2] r2].
  cbn [fst snd] in *. exists (t1 ++ t2)%list. split.
  - rewrite app_assoc. reflexivity.
  - rewrite !slept_app in Hslept. rewrite slept_app.
    cbn [slept] in Hslept.
    destruct (slept t1) as [|a l]; destruct (slept t2) as [|b l'];
      cbn [app] in *; try reflexivity; try discriminate Hslept.
    + injection Hslept as _ H. destruct l'; discriminate H.
    + injection Hslept as _ H. destruct l; discriminate H.
    + injection Hslept as _ H. destruct l; discriminate H.
Qed.

Lemma poll_cycle_logs_error (timestamp : Z) (w : World) (st : PollState)
    (e : exn) :
  snd (try_block timestamp w st) = Raises e ->
  In (Log ERROR (exn_str e)) (fst (fst (poll_cycle timestamp w st))).
Proof.
  intros He. rewrite poll_cycle_unfold.
  destruct (try_block timestamp w st) as [[t1 st1] r1]. cbn [snd] in He.
  subst r1. rewrite except_block_unfold.
  destruct (str_ne _ _); cbn [fst snd]; apply in_or_app; right;
    left; reflexivity.
Qed.

(** C9. No error ends the loop, and every cycle sleeps: a cycle returns
    whatever its world does, its trace ends with the sleep of
    [RETRY_PERIOD] seconds and has no other sleep, an exception raised in
    its try block is logged by the handler; and the loop runs every
    cycle of any schedule, one request and one sleep each, without an
    exception leaving it. *)
Theorem loop_survives_errors (timestamp : Z) :
  (forall w st,
     snd (poll_cycle timestamp w st) = Returns tt
     /\ (exists t,
          fst (fst (poll_cycle timestamp w st)) =
            (t ++ [Sleep RETRY_PERIOD;
                   Log DEBUG "Конец цикла работы бота. Прошло 10 минут."])%list
          /\ slept t = [])
     /\ (forall e, snd (try_block timestamp w st) = Raises e ->
         In (Log ERROR (exn_str e)) (fst (fst (poll_cycle timestamp w st)))))
  /\ (forall schedule st,
       snd (poll_loop timestamp schedule st) = Returns tt
       /\ slept (fst (fst (poll_loop timestamp schedule st))) =
          repeat RETRY_PERIOD (length schedule)
       /\ length (cursors (fst (fst (poll_loop timestamp schedule st)))) =
          length schedule).
Proof.
  split.
  - intros w st. split; [apply poll_cycle_returns|]. split.
    + apply poll_cycle_ends_asleep.
    + intros e. apply poll_cycle_logs_error.
  - intros schedule st. split; [apply poll_loop_returns|]. split.
    + apply poll_loop_slept.
    + apply poll_loop_requests.
Qed.

(** ** Error notifications *)

Lemma str_ne_same (s : string) : str_ne s (JStr s) = false.
Proof. apply str_ne_false. reflexivity. Qed.

Lemma str_ne_other (s t : string) : s <> t -> str_ne s (JStr t) = true.
Proof.
  intros H. simpl. apply negb_true_iff, String.eqb_neq, H.
Qed.

(** C7, as amended. Two consecutive cycles that each raise an error with
    the same diagnostic: the notifier is called once across the two when
    the diagnostic differs from the last error text held before the
    first cycle, and not at all when it equals it; the second cycle
    never calls it.  When the second
    cycle's diagnostic differs from the first's, the second cycle calls
    the notifier with it and it becomes the last error text. *)
Theorem error_suppression (timestamp : Z) (w1 w2 : World) (st : PollState)
    (e1 e2 : exn) :
  snd (try_block timestamp w1 st) = Raises e1 ->
  snd (try_block timestamp w2 (snd (fst (poll_cycle timestamp w1 st))))
    = Raises e2 ->
  (diagnostic e2 = diagnostic e1 ->
   sent (fst (fst (poll_loop timestamp [w1; w2] st))) =
     (if str_ne (diagnostic e1) (last_telegram_message st)
      then [diagnostic e1] else [])
   /\ sent (fst (fst (poll_cycle timestamp w2
                        (snd (fst (poll_cycle timestamp w1 st)))))) = [])
  /\ (diagnostic e2 <> diagnostic e1 ->
      sent (fst (fst (poll_cycle timestamp w2
                        (snd (fst (poll_cycle timestamp w1 st))))))
        = [diagnostic e2]
      /\ last_telegram_message (state_after timestamp [w1; w2] st)
         = JStr (diagnostic e2)).
Proof.
  intros H1 H2.
  destruct (poll_cycle_error timestamp w1 st e1 H1) as [Hsent1 Htext1].
  destruct (poll_cycle_error timestamp w2 _ e2 H2) as [Hsent2 Htext2].
  rewrite Htext1 in Hsent2. split.
  - intros Hsame. rewrite Hsame, str_ne_same in Hsent2.
    split; [|exact Hsent2].
    rewrite (poll_loop_cons timestamp w1 [w2] st). cbv zeta.
    rewrite (poll_loop_cons timestamp w2 []). cbv zeta.
    cbn [fst snd poll_loop loop_ret ret Monad_Loop].
    rewrite !sent_app, Hsent1, Hsent2.
    cbn [sent]. rewrite !app_nil_r. reflexivity.
  - intros Hdiff. split.
    + rewrite Hsent2, (str_ne_other _ _ Hdiff). reflexivity.
    + cbn [state_after]. exact Htext2.
Qed.

Lemma calm_keeps_error_text (timestamp : Z) (schedule : list World)
    (st : PollState) :
  calm timestamp schedule st ->
  last_telegram_message (state_after timestamp schedule st) =
  last_telegram_message st.
Proof.
  revert st. induction schedule as [|w rest IH]; intros st; [reflexivity|].
  intros [Hret Hrest]. cbn [state_after]. rewrite (IH _ Hrest).
  destruct (poll_cycle_calm timestamp w st Hret) as [-> _].
  apply try_block_keeps_error_text.
Qed.

(** C10. The last error text is assigned in the handler only: a cycle
    whose try block returns leaves it as it was.  Hence after a cycle
    that raised an error, any number of cycles without error, and a
    cycle raising an error with the same diagnostic, that last cycle
    sends nothing. *)
Theorem error_text_outlives_success (timestamp : Z) :
  (forall w st,
     snd (try_block timestamp w st) = Returns tt ->
     last_telegram_message (snd (fst (poll_cycle timestamp w st))) =
     last_telegram_message st)
  /\ (forall w0 st0 e0 good w1 e1,
       snd (try_block timestamp w0 st0) = Raises e0 ->
       calm timestamp good (snd (fst (poll_cycle timestamp w0 st0))) ->
       snd (try_block timestamp w1
              (state_after timestamp (w0 :: good) st0)) = Raises e1 ->
       diagnostic e1 = diagnostic e0 ->
       sent (fst (fst (poll_cycle timestamp w1
                         (state_after timestamp (w0 :: good) st0)))) = []).
Proof.
  split.
  - intros w st Hret.
    destruct (poll_cycle_calm timestamp w st Hret) as [-> _].
    apply try_block_keeps_error_text.
  - intros w0 st0 e0 good w1 e1 H0 Hcalm H1 Hsame.
    destruct (poll_cycle_error timestamp w1 _ e1 H1) as [Hsent _].
    rewrite Hsent. cbn [state_after].
    rewrite (calm_keeps_error_text _ _ _ Hcalm).
    destruct (poll_cycle_error timestamp w0 st0 e0 H0) as [_ ->].
    rewrite Hsame, str_ne_same. reflexivity.
Qed.

(** ** Homework notifications *)

Lemma verdict_codes (code text : string) :
  lookup code HOMEWORK_VERDICTS = Some text ->
  code = "approved" \/ code = "reviewing" \/ code = "rejected".
Proof.
  unfold HOMEWORK_VERDICTS. cbn [lookup].
  destruct (String.eqb_spec "approved" code) as [ <- | _ ]; [auto|].
  destruct (String.eqb_spec "reviewing" code) as [ <- | _ ]; [auto|].
  destruct (String.eqb_spec "rejected" code) as [ <- | _ ]; [auto|].
  discriminate.
Qed.

(** The formatted message is compared with the stored verdict code, and
    no message equals a code: every message starts with the same Russian
    sentence. *)
Lemma status_message_is_no_code (homework_name : json) (verdict : string)
    (v : json) :
  none_or_code v -> str_ne (status_message homework_name verdict) v = true.
Proof.
  intros [->|(code & text & -> & Hcode)]; [reflexivity|].
  destruct (verdict_codes code text Hcode) as [ -> | [ -> | -> ] ]; reflexivity.
Qed.

Lemma check_response_returns (response homework : json) :
  snd (check_response response) = Returns homework ->
  exists current_date,
    snd (py_getitem response "current_date") = Returns current_date.
Proof.
  destruct response as [| | | | |fields]; try discriminate.
  rewrite check_response_dict. unfold dict_get, py_getitem.
  destruct (lookup "current_date" fields) as [v|]; [|discriminate].
  intros _. exists v. reflexivity.
Qed.

Lemma parse_status_returns (homework : json) (message : string) :
  snd (parse_status homework) = Returns message ->
  exists fields code text,
    homework = JDict fields
    /\ lookup "status" fields = Some (JStr code)
    /\ lookup code HOMEWORK_VERDICTS = Some text
    /\ message = status_message (dict_get fields "homework_name") text.
Proof.
  destruct homework as [| | | | |fields]; try discriminate.
  destruct (dict_get fields "status") as [| | |code| |] eqn:Hstatus.
  1-3, 5-6:
    unfold parse_status, py_get; run_eff; rewrite Hstatus;
    destruct (py_bool (dict_get fields "homework_name")); cbn [py_bool andb];
    try destruct b; try destruct (negb (n =? 0)%Z);
    try destruct items; try destruct fields0; discriminate.
  rewrite (parse_status_str fields code Hstatus).
  destruct (py_bool (dict_get fields "homework_name") && negb (code =? ""));
    [|discriminate].
  destruct (lookup code HOMEWORK_VERDICTS) as [text|] eqn:Hcode; [|discriminate].
  intros H. injection H as <-. exists fields, code, text.
  repeat split; try assumption.
  unfold dict_get in Hstatus.
  destruct (lookup "status" fields) as [v|]; [|discriminate Hstatus].
  rewrite Hstatus. reflexivity.
Qed.

(** A cycle that formats a message sends it, whatever was notified
    before: the comparison with the stored code never finds the two
    equal.  The stored value stays [None] or a code. *)
Lemma formatted_message_is_sent (timestamp : Z) (w : World) (st : PollState)
    (response homework : json) (message : string) :
  http w (py_or (last_check_time st) (JInt timestamp))
    = Responds 200 (Some response) ->
  snd (check_response response) = Returns homework ->
  py_bool homework = true ->
  snd (parse_status homework) = Returns message ->
  none_or_code (last_homework_status st) ->
  sent (fst (fst (poll_cycle timestamp w st))) = [message]
  /\ none_or_code (last_homework_status (snd (fst (poll_cycle timestamp w st)))).
Proof.
  intros Hhttp Hcheck Htrue Hparse Hold. apply get_api_answer_ok in Hhttp.
  destruct (check_response_returns _ _ Hcheck) as [current_date Hdate].
  destruct (parse_status_returns _ _ Hparse)
    as (fields & code & text & -> & Hstatus & Hcode & ->).
  assert (Hne : str_ne (status_message (dict_get fields "homework_name") text)
                  (last_homework_status (set_last_check_time current_date st))
                = true)
    by (apply status_message_is_no_code, Hold).
  assert (Hitem : py_getitem (JDict fields) "status" = ([], Returns (JStr code)))
    by (unfold py_getitem; rewrite Hstatus; reflexivity).
  assert (Htry : snd (try_block timestamp w st) = Returns tt
                 /\ sent (fst (fst (try_block timestamp w st)))
                    = [status_message (dict_get fields "homework_name") text]
                 /\ last_homework_status (snd (fst (try_block timestamp w st)))
                    = JStr code).
  { unfold try_block. run_eff. rewrite Hhttp. run_eff. rewrite Hcheck. run_eff.
    rewrite Htrue. run_eff. rewrite Hdate. run_eff. rewrite Hparse. run_eff.
    rewrite Hne. run_eff. rewrite Hitem. run_eff.
    rewrite send_message_snd. repeat split. read_trace. }
  destruct Htry as (Hret & Hsent & Hstored).
  destruct (poll_cycle_calm timestamp w st Hret) as [-> ->].
  split; [exact Hsent|]. right. exists code, text. split; assumption.
Qed.

Lemma except_block_keeps_status (w : World) (e : exn) (st : PollState) :
  last_homework_status (snd (fst (except_block w e st))) =
  last_homework_status st.
Proof.
  rewrite except_block_unfold. destruct (str_ne _ _); reflexivity.
Qed.

Lemma try_block_keeps_code (timestamp : Z) (w : World) (st : PollState) :
  none_or_code (last_homework_status st) ->
  none_or_code (last_homework_status (snd (fst (try_block timestamp w st)))).
Proof.
  intros Hold. unfold try_block. walk; try exact Hold.
  all: match goal with
       | H : snd (parse_status _) = Returns _ |- _ =>
           destruct (parse_status_returns _ _ H)
             as (fields & code & text & -> & Hstatus & Hcode & _)
       end.
  all: match goal with
       | H : snd (py_getitem (JDict _) "status") = Returns _ |- _ =>
           unfold py_getitem in H; rewrite Hstatus in H; injection H as <-
       end.
  all: right; exists code, text; split; [reflexivity | exact Hcode].
Qed.

Lemma poll_cycle_keeps_code (timestamp : Z) (w : World) (st : PollState) :
  none_or_code (last_homework_status st) ->
  none_or_code (last_homework_status (snd (fst (poll_cycle timestamp w st)))).
Proof.
  intros Hold. apply (try_block_keeps_code timestamp w) in Hold.
  rewrite poll_cycle_unfold.
  destruct (try_block timestamp w st) as [[t1 st1] [[]|error]];
    cbn [fst snd] in *; [exact Hold|].
  pose proof (except_block_keeps_status w error st1) as H.
  destruct (except_block w error st1) as [[t2 st2] r2]. cbn [fst snd] in *.
  rewrite H. exact Hold.
Qed.

(** From the start of the process on, [last_homework_status] is [None]
    or a verdict code. *)
Lemma reachable_code (timestamp : Z) (schedule : list World) :
  none_or_code
    (last_homework_status (state_after timestamp schedule initial_state)).
Proof.
  assert (H : forall st, none_or_code (last_homework_status st) ->
                none_or_code
                  (last_homework_status (state_after timestamp schedule st))).
  { induction schedule as [|w rest IH]; intros st Hst; [exact Hst|].
    cbn [state_after]. apply IH, poll_cycle_keeps_code, Hst. }
  apply H. left. reflexivity.
Qed.

(** In every run of the loop, a cycle that formats a message sends it:
    no notification about a homework is ever suppressed. *)
Lemma verdict_never_suppressed (timestamp : Z) (schedule : list World)
    (w : World) (response homework : json) (message : string) :
  let st := state_after timestamp schedule initial_state in
  http w (py_or (last_check_time st) (JInt timestamp))
    = Responds 200 (Some response) ->
  snd (check_response response) = Returns homework ->
  py_bool homework = true ->
  snd (parse_status homework) = Returns message ->
  sent (fst (fst (poll_cycle timestamp w st))) = [message].
Proof.
  intros st Hhttp Hcheck Htrue Hparse.
  apply (formatted_message_is_sent timestamp w st response homework message);
    try assumption.
  apply reachable_code.
Qed.

(** ** Start-up *)

(** With a secret unset or empty, [main] logs the CRITICAL record and
    raises [NameError] without building the client, before any request,
    message or sleep.  With the three secrets set it builds the client:
    if [telegram.Bot] raises, that exception leaves [main] before the
    first cycle; if the client is built, every cycle of the schedule
    runs and no exception leaves [main]. *)
Theorem main_requires_tokens (now : Z) (schedule : list World) :
  (tokens_ready = false ->
   main now schedule =
     ([Log DEBUG "Запущена проверка необходимых переменных окружения";
       Log CRITICAL "Отсутствуют переменные окружения"],
      Raises missing_environment))
  /\ (tokens_ready = true ->
      forall e, telegram_Bot TELEGRAM_TOKEN = Raises e ->
      main now schedule =
        ([Log DEBUG "Запущена проверка необходимых переменных окружения"],
         Raises e))
  /\ (tokens_ready = true ->
      telegram_Bot TELEGRAM_TOKEN = Returns tt ->
      snd (main now schedule) = Returns tt
      /\ slept (fst (main now schedule)) = repeat RETRY_PERIOD (length schedule)
      /\ length (cursors (fst (main now schedule))) = length schedule).
Proof.
  unfold main, check_tokens, new_bot. run_eff. fold tokens_ready.
  split; [|split]; intros ->.
  - reflexivity.
  - intros e ->. reflexivity.
  - intros ->. cbn [negb].
    pose proof (poll_loop_returns now schedule initial_state) as Hret.
    pose proof (poll_loop_slept now schedule initial_state) as Hslept.
    pose proof (poll_loop_requests now schedule initial_state) as Hreq.
    destruct (poll_loop now schedule initial_state) as [[t st] r].
    cbn [fst snd] in *. repeat split; assumption.
Qed.

(** ** The API client *)

(** [get_api_answer] makes one request, to the endpoint, with the cursor
    and the OAuth header.  A failed request raises its own exception; an
    answer with a status other than 200 raises [HttpCodeIsNot200] and
    its body is not looked at; a 200 answer returns the decoded body;
    when the body is not JSON, the decoding error of [requests] is
    caught and what leaves the function is the exception of the
    handler's own [raise] statement. *)
Theorem get_api_answer_outcomes (w : World) (cursor : json) :
  requested (fst (get_api_answer w cursor)) = [(ENDPOINT, cursor, HEADERS)]
  /\ snd (get_api_answer w cursor) =
     match http w cursor with
     | RequestFails reason => Raises (Exn RequestException reason)
     | Responds status_code body =>
         if (status_code =? 200)%Z
         then match body with
              | Some decoded => Returns decoded
              | None => Raises undecodable_body
              end
         else Raises bad_status
     end.
Proof.
  unfold get_api_answer. run_eff.
  destruct (http w cursor) as [reason|status_code [decoded|]];
    [split; reflexivity| |];
    destruct (status_code =? 200)%Z; split; reflexivity.
Qed.

(** ** More on the validator and the formatter *)

(** A decoded body that is not a mapping (a list, a string, a number,
    a boolean, [None]) is rejected with [TypeError] before any key is
    looked at; a mapping never gets that error. *)
Theorem check_response_wants_mapping (response : json) :
  snd (check_response response) = Raises not_a_mapping
  <-> forall fields, response <> JDict fields.
Proof.
  destruct response as [| | | | |fields];
    try (split; [intros _ fields; discriminate | reflexivity]).
  split.
  - rewrite check_response_dict.
    destruct (py_bool (dict_get fields "current_date")); [|discriminate].
    destruct (dict_get fields "homeworks") as [| | | |[|first rest]|];
      discriminate.
  - intros H. exfalso. exact (H fields eq_refl).
Qed.

(** [parse_status] returns a message exactly for a mapping with a truthy
    [homework_name] and a [status] that is one of the strings of the
    verdict table; the message is the fixed sentence around the name,
    followed by the text of the table. *)
Theorem parse_status_returns_iff (homework : json) (message : string) :
  snd (parse_status homework) = Returns message
  <-> exists fields code text,
        homework = JDict fields
        /\ py_bool (dict_get fields "homework_name") = true
        /\ lookup "status" fields = Some (JStr code)
        /\ lookup code HOMEWORK_VERDICTS = Some text
        /\ message = status_message (dict_get fields "homework_name") text.
Proof.
  split.
  - intros H.
    destruct (parse_status_returns _ _ H)
      as (fields & code & text & -> & Hstatus & Hcode & ->).
    exists fields, code, text. repeat split; try assumption.
    assert (Hs : dict_get fields "status" = JStr code)
      by (unfold dict_get; rewrite Hstatus; reflexivity).
    rewrite (parse_status_str fields code Hs) in H.
    destruct (py_bool (dict_get fields "homework_name"));
      [reflexivity | discriminate H].
  - intros (fields & code & text & -> & Hname & Hstatus & Hcode & ->).
    assert (Hs : dict_get fields "status" = JStr code)
      by (unfold dict_get; rewrite Hstatus; reflexivity).
    rewrite (parse_status_str fields code Hs), Hname, Hcode.
    assert (Hne : negb (code =? "") = true).
    { apply negb_true_iff, String.eqb_neq. intros ->. discriminate Hcode. }
    rewrite Hne. reflexivity.
Qed.

(** On a mapping, [parse_status] raises the incomplete-record
    [KeyError] exactly when [homework_name] or [status] is absent or
    falsy; the test comes before the verdict table is consulted, so an
    unknown status under a missing name is reported as an incomplete
    record. *)
Theorem parse_status_incomplete_iff (fields : list (string * json)) :
  snd (parse_status (JDict fields)) = Raises incomplete_record
  <-> py_bool (dict_get fields "homework_name") = false
      \/ py_bool (dict_get fields "status") = false.
Proof.
  unfold parse_status, py_get. run_eff.
  destruct (py_bool (dict_get fields "homework_name")) eqn:Hname;
    destruct (py_bool (dict_get fields "status")) eqn:Hstatus;
    cbn [andb]; try (split; [auto | reflexivity]).
  split; [|intros [H|H]; discriminate H].
  unfold in_verdicts, verdict_of.
  destruct (dict_get fields "status") as [| | |code| |]; run_eff;
    try discriminate.
  destruct (lookup code HOMEWORK_VERDICTS); discriminate.
Qed.

(** A status that is a list or a mapping cannot be looked up in the
    verdict table: [parse_status] raises the interpreter's [TypeError]
    for an unhashable key, not the unknown-verdict [ValueError]; a
    truthy number or [True] gets the [ValueError]. *)
Theorem parse_status_odd_status (fields : list (string * json)) :
  py_bool (dict_get fields "homework_name") = true ->
  py_bool (dict_get fields "status") = true ->
  snd (parse_status (JDict fields)) =
  match dict_get fields "status" with
  | JList _ =>
      Raises (Exn TypeError ("unhashable type: " ++ squote ++ "list" ++ squote))
  | JDict _ =>
      Raises (Exn TypeError ("unhashable type: " ++ squote ++ "dict" ++ squote))
  | JStr code =>
      match lookup code HOMEWORK_VERDICTS with
      | Some text =>
          Returns (status_message (dict_get fields "homework_name") text)
      | None => Raises unknown_verdict
      end
  | _ => Raises unknown_verdict
  end.
Proof.
  intros Hname Hstatus. unfold parse_status, py_get. run_eff.
  rewrite Hname, Hstatus. cbn [andb]. unfold in_verdicts, verdict_of.
  destruct (dict_get fields "status") as [| | |code| |]; run_eff;
    try reflexivity.
  destruct (lookup code HOMEWORK_VERDICTS); reflexivity.
Qed.

(** ** More on one cycle *)

(** Every cycle makes exactly one request, whatever happens in it; its
    cursor is [last_check_time] when that is set and the start time of
    the process otherwise, as in the first cycle. *)
Theorem request_cursor_rule (timestamp : Z) (w : World) (st : PollState) :
  cursors (fst (fst (poll_cycle timestamp w st))) =
    [if py_bool (last_check_time st) then last_check_time st
     else JInt timestamp]
  /\ cursors (fst (fst (poll_cycle timestamp w initial_state))) =
     [JInt timestamp].
Proof.
  split; apply poll_cycle_cursors.
Qed.

(** When the validator returns a falsy value, the cycle does nothing:
    no assignment, no message, no error.  That is the case of an empty
    [homeworks] list, and also of a list whose first element is [None],
    an empty mapping, 0 or an empty string. *)
Theorem falsy_homework_ignored (timestamp : Z) (w : World) (st : PollState)
    (response homework : json) :
  http w (py_or (last_check_time st) (JInt timestamp))
    = Responds 200 (Some response) ->
  snd (check_response response) = Returns homework ->
  py_bool homework = false ->
  snd (try_block timestamp w st) = Returns tt
  /\ snd (fst (poll_cycle timestamp w st)) = st
  /\ sent (fst (fst (poll_cycle timestamp w st))) = [].
Proof.
  intros Hhttp Hcheck Hfalse. apply get_api_answer_ok in Hhttp.
  assert (Htry : snd (try_block timestamp w st) = Returns tt
                 /\ snd (fst (try_block timestamp w st)) = st
                 /\ sent (fst (fst (try_block timestamp w st))) = []).
  { unfold try_block. run_eff. rewrite Hhttp. run_eff. rewrite Hcheck.
    run_eff. rewrite Hfalse. run_eff. repeat split. read_trace. }
  destruct Htry as (Hret & Hst & Hsent).
  destruct (poll_cycle_calm timestamp w st Hret) as [Hst' Hsent'].
  rewrite Hsent', Hst'. repeat split; assumption.
Qed.

Lemma except_block_changes_text_only (w : World) (e : exn) (st : PollState) :
  last_check_time (snd (fst (except_block w e st))) = last_check_time st
  /\ last_homework_status (snd (fst (except_block w e st)))
     = last_homework_status st.
Proof.
  split; [apply except_block_keeps_cursor | apply except_block_keeps_status].
Qed.

Lemma poll_cycle_raised_state (timestamp : Z) (w : World) (st : PollState)
    (e : exn) :
  snd (try_block timestamp w st) = Raises e ->
  last_check_time (snd (fst (poll_cycle timestamp w st)))
    = last_check_time (snd (fst (try_block timestamp w st)))
  /\ last_homework_status (snd (fst (poll_cycle timestamp w st)))
     = last_homework_status (snd (fst (try_block timestamp w st))).
Proof.
  intros He. rewrite poll_cycle_unfold.
  destruct (try_block timestamp w st) as [[t1 st1] r1]. cbn [fst snd] in *.
  subst r1.
  pose proof (except_block_changes_text_only w e st1) as H.
  destruct (except_block w e st1) as [[t2 st2] r2]. exact H.
Qed.

(** When the formatter raises, the cursor has already moved to the
    response's [current_date]; the stored verdict stays as it was, and
    the cycle's only message is the diagnostic of the error, sent unless
    it repeats the last error text. *)
Theorem format_error_cycle (timestamp : Z) (w : World) (st : PollState)
    (response homework current_date : json) (e : exn) :
  http w (py_or (last_check_time st) (JInt timestamp))
    = Responds 200 (Some response) ->
  snd (check_response response) = Returns homework ->
  py_bool homework = true ->
  snd (py_getitem response "current_date") = Returns current_date ->
  snd (parse_status homework) = Raises e ->
  let st' := snd (fst (poll_cycle timestamp w st)) in
  last_check_time st' = current_date
  /\ last_homework_status st' = last_homework_status st
  /\ last_telegram_message st' = JStr (diagnostic e)
  /\ sent (fst (fst (poll_cycle timestamp w st))) =
     if str_ne (diagnostic e) (last_telegram_message st)
     then [diagnostic e] else [].
Proof.
  intros Hhttp Hcheck Htrue Hdate Hparse st'.
  apply get_api_answer_ok in Hhttp.
  assert (Htry : snd (try_block timestamp w st) = Raises e
                 /\ snd (fst (try_block timestamp w st))
                    = set_last_check_time current_date st).
  { unfold try_block. run_eff. rewrite Hhttp. run_eff. rewrite Hcheck.
    run_eff. rewrite Htrue. run_eff. rewrite Hdate. run_eff.
    rewrite Hparse. run_eff. split; reflexivity. }
  destruct Htry as [Hraise Hstate].
  destruct (poll_cycle_raised_state timestamp w st e Hraise) as [Hc Hs].
  destruct (poll_cycle_error timestamp w st e Hraise) as [Hsent Htext].
  unfold st'. rewrite Hc, Hs, Hstate. repeat split; assumption.
Qed.

(** When the request fails or the validator rejects the answer, the
    cursor and the stored verdict stay as they were, and the next cycle
    asks again with the same cursor. *)
Theorem failed_poll_keeps_cursor (timestamp : Z) (w : World) (st : PollState)
    (e : exn) :
  let cursor := py_or (last_check_time st) (JInt timestamp) in
  snd (get_api_answer w cursor) = Raises e
  \/ (exists response,
        snd (get_api_answer w cursor) = Returns response
        /\ snd (check_response response) = Raises e) ->
  let st' := snd (fst (poll_cycle timestamp w st)) in
  snd (try_block timestamp w st) = Raises e
  /\ last_check_time st' = last_check_time st
  /\ last_homework_status st' = last_homework_status st
  /\ forall next : World,
       cursors (fst (fst (poll_cycle timestamp next st'))) = [cursor].
Proof.
  intros cursor H st'.
  assert (Htry : snd (try_block timestamp w st) = Raises e
                 /\ snd (fst (try_block timestamp w st)) = st).
  { unfold try_block. run_eff. fold cursor.
    destruct H as [H|(response & Hget & Hcheck)].
    - rewrite H. split; reflexivity.
    - rewrite Hget. run_eff. rewrite Hcheck. split; reflexivity. }
  destruct Htry as [Hraise Hstate].
  destruct (poll_cycle_raised_state timestamp w st e Hraise) as [Hc Hs].
  rewrite Hstate in Hc, Hs. split; [exact Hraise|].
  split; [exact Hc|]. split; [exact Hs|].
  intros next. rewrite poll_cycle_cursors. unfold st', cursor.
  fold st'. unfold st'. rewrite Hc. reflexivity.
Qed.

(** ** More on the loop *)

Lemma accepted_date_truthy (response homework current_date : json) :
  snd (check_response response) = Returns homework ->
  snd (py_getitem response "current_date") = Returns current_date ->
  py_bool current_date = true.
Proof.
  destruct response as [| | | | |fields]; try discriminate.
  rewrite check_response_dict. unfold dict_get, py_getitem.
  destruct (lookup "current_date" fields) as [v|]; [|discriminate].
  intros Hcheck Hdate. injection Hdate as <-.
  destruct (py_bool v); [reflexivity | discriminate Hcheck].
Qed.

Lemma try_block_keeps_cursor_set (timestamp : Z) (w : World) (st : PollState) :
  py_bool (last_check_time st) = true ->
  py_bool (last_check_time (snd (fst (try_block timestamp w st)))) = true.
Proof.
  intros Hset. unfold try_block. walk; try exact Hset.
  all: cbn [last_check_time set_last_check_time set_last_homework_status].
  all: eapply accepted_date_truthy; eassumption.
Qed.

(** Once a cycle has stored a cursor, the start time of the process is
    never used again: the stored cursor stays truthy through every later
    cycle, errors included, and each later request carries the cursor
    stored at that moment. *)
Theorem cursor_stays_set (timestamp : Z) (schedule : list World)
    (st : PollState) :
  py_bool (last_check_time st) = true ->
  py_bool (last_check_time (state_after timestamp schedule st)) = true
  /\ forall next : World,
       cursors (fst (fst (poll_cycle timestamp next
                            (state_after timestamp schedule st))))
       = [last_check_time (state_after timestamp schedule st)].
Proof.
  intros Hset.
  assert (H : py_bool (last_check_time (state_after timestamp schedule st))
              = true).
  { revert st Hset. induction schedule as [|w rest IH]; intros st Hset;
      [exact Hset|].
    cbn [state_after]. apply IH. rewrite poll_cycle_cursor_after.
    apply try_block_keeps_cursor_set, Hset. }
  split; [exact H|].
  intros next. rewrite poll_cycle_cursors. unfold py_or. rewrite H.
  reflexivity.
Qed.

Lemma try_block_sends_once (timestamp : Z) (w : World) (st : PollState) :
  length (sent (fst (fst (try_block timestamp w st)))) <= 1.
Proof.
  unfold try_block. walk; read_trace; cbn [length]; lia.
Qed.

Lemma poll_cycle_sends_once (timestamp : Z) (w : World) (st : PollState) :
  length (sent (fst (fst (poll_cycle timestamp w st)))) <= 1.
Proof.
  destruct (snd (try_block timestamp w st)) as [[]|e] eqn:Htry.
  - destruct (poll_cycle_calm timestamp w st Htry) as [_ ->].
    apply try_block_sends_once.
  - destruct (poll_cycle_error timestamp w st e Htry) as [-> _].
    destruct (str_ne _ _); cbn [length]; lia.
Qed.

(** No cycle calls the notifier twice: a cycle sends the homework
    message, or the diagnostic of its error, or nothing.  A run of the
    loop never sends more messages than it has cycles. *)
Theorem one_message_per_cycle (timestamp : Z) (schedule : list World)
    (st : PollState) :
  (forall w, length (sent (fst (fst (poll_cycle timestamp w st)))) <= 1)
  /\ length (sent (fst (fst (poll_loop timestamp schedule st))))
     <= length schedule.
Proof.
  split; [intros w; apply poll_cycle_sends_once|].
  revert st. induction schedule as [|w rest IH]; intros st;
    [cbn; lia|].
  rewrite poll_loop_cons. cbn [fst snd length].
  rewrite sent_app, length_app.
  pose proof (poll_cycle_sends_once timestamp w st).
  pose proof (IH (snd (fst (poll_cycle timestamp w st)))).
  lia.
Qed.

(** ** What a notification depends on *)

Lemma get_api_answer_same_http (w w' : World) (cursor : json) :
  http w cursor = http w' cursor ->
  get_api_answer w cursor = get_api_answer w' cursor.
Proof.
  intros H. unfold get_api_answer. rewrite H. reflexivity.
Qed.

Lemma send_message_same_text (bot bot' : string -> delivery) (message : string) :
  sent (fst (send_message bot message))
  = sent (fst (send_message bot' message))
  /\ snd (send_message bot message) = snd (send_message bot' message).
Proof.
  rewrite !send_message_sent, !send_message_snd. split; reflexivity.
Qed.

Lemma try_block_same_http (timestamp : Z) (w w' : World) (st : PollState) :
  http w = http w' ->
  snd (try_block timestamp w st) = snd (try_block timestamp w' st)
  /\ snd (fst (try_block timestamp w st))
     = snd (fst (try_block timestamp w' st))
  /\ sent (fst (fst (try_block timestamp w st)))
     = sent (fst (fst (try_block timestamp w' st))).
Proof.
  intros Hhttp. unfold try_block. run_eff.
  rewrite (get_api_answer_same_http w w') by (rewrite Hhttp; reflexivity).
  walk; try absurd_call; repeat split; read_trace.
Qed.

(** The loop forgets what became of a delivery: two cycles that start
    from the same locals and get the same answer from the API hand the
    same texts to the chat client and end with the same locals, whether
    each delivery succeeds or fails.  A message whose delivery failed is
    recorded like a delivered one. *)
Theorem delivery_outcome_forgotten (timestamp : Z) (w w' : World)
    (st : PollState) :
  http w = http w' ->
  snd (fst (poll_cycle timestamp w st)) = snd (fst (poll_cycle timestamp w' st))
  /\ sent (fst (fst (poll_cycle timestamp w st)))
     = sent (fst (fst (poll_cycle timestamp w' st))).
Proof.
  intros Hhttp.
  destruct (try_block_same_http timestamp w w' st Hhttp) as (Hr & Hs & Ht).
  rewrite !poll_cycle_unfold.
  destruct (try_block timestamp w st) as [[t1 st1] r1].
  destruct (try_block timestamp w' st) as [[t1' st1'] r1'].
  cbn [fst snd] in *. subst r1' st1'.
  destruct r1 as [[]|e]; cbn [fst snd].
  - split; [reflexivity|]. read_trace. rewrite Ht. reflexivity.
  - rewrite !except_block_unfold.
    destruct (str_ne _ _); cbn [fst snd]; (split; [reflexivity|]);
      read_trace; rewrite Ht; reflexivity.
Qed.

Lemma get_api_answer_bad_status (w : World) (cursor : json)
    (status_code : Z) (body : option json) :
  http w cursor = Responds status_code body ->
  status_code <> 200%Z ->
  snd (get_api_answer w cursor) = Raises bad_status.
Proof.
  intros H Hcode. unfold get_api_answer. run_eff. rewrite H.
  destruct (Z.eqb_spec status_code 200) as [Heq|_]; [contradiction|].
  reflexivity.
Qed.

Lemma try_block_bad_status (timestamp : Z) (w : World) (st : PollState)
    (status_code : Z) (body : option json) :
  (forall cursor, http w cursor = Responds status_code body) ->
  status_code <> 200%Z ->
  snd (try_block timestamp w st) = Raises bad_status.
Proof.
  intros H Hcode. unfold try_block. run_eff.
  rewrite (get_api_answer_bad_status w _ status_code body (H _) Hcode).
  reflexivity.
Qed.

(** The diagnostic of a refused request does not say which status code
    came back: after a cycle refused with one code, a cycle refused with
    any other code than 200 sends nothing. *)
Theorem http_errors_indistinguishable (timestamp : Z) (w1 w2 : World)
    (st : PollState) (code1 code2 : Z) (body1 body2 : option json) :
  (forall cursor, http w1 cursor = Responds code1 body1) ->
  (forall cursor, http w2 cursor = Responds code2 body2) ->
  code1 <> 200%Z ->
  code2 <> 200%Z ->
  let st1 := snd (fst (poll_cycle timestamp w1 st)) in
  last_telegram_message st1 = JStr (diagnostic bad_status)
  /\ sent (fst (fst (poll_cycle timestamp w2 st1))) = [].
Proof.
  intros H1 H2 Hc1 Hc2 st1.
  pose proof (try_block_bad_status timestamp w1 st code1 body1 H1 Hc1) as E1.
  pose proof (try_block_bad_status timestamp w2 st1 code2 body2 H2 Hc2) as E2.
  destruct (poll_cycle_error timestamp w1 st _ E1) as [_ Htext].
  destruct (poll_cycle_error timestamp w2 st1 _ E2) as [Hsent _].
  split; [exact Htext|].
  rewrite Hsent. fold st1 in Htext. rewrite Htext, str_ne_same. reflexivity.
Qed.

Lemma append_cancel (a b c : string) : a ++ b = a ++ c -> b = c.
Proof.
  induction a as [|ch a IH]; cbn [append]; intros H; [exact H|].
  injection H as H. exact (IH H).
Qed.

Lemma verdict_texts_differ (code1 code2 text1 text2 : string) :
  lookup code1 HOMEWORK_VERDICTS = Some text1 ->
  lookup code2 HOMEWORK_VERDICTS = Some text2 ->
  code1 <> code2 ->
  text1 <> text2.
Proof.
  intros H1 H2 Hne.
  destruct (verdict_codes _ _ H1) as [ -> | [ -> | -> ] ];
    destruct (verdict_codes _ _ H2) as [ -> | [ -> | -> ] ];
    try (exfalso; apply Hne; reflexivity);
    cbn in H1, H2; injection H1 as <-; injection H2 as <-; discriminate.
Qed.

(** Change detection: from any point of a run, two consecutive cycles
    that receive records with the same name and two different verdict
    codes of the table send two messages, and the two differ. *)
Theorem verdict_change_notified (timestamp : Z) (schedule : list World)
    (w1 w2 : World) (response1 response2 : json)
    (fields1 fields2 : list (string * json)) (code1 code2 : string)
    (message1 message2 : string) :
  (forall cursor, http w1 cursor = Responds 200 (Some response1)) ->
  (forall cursor, http w2 cursor = Responds 200 (Some response2)) ->
  snd (check_response response1) = Returns (JDict fields1) ->
  snd (check_response response2) = Returns (JDict fields2) ->
  snd (parse_status (JDict fields1)) = Returns message1 ->
  snd (parse_status (JDict fields2)) = Returns message2 ->
  dict_get fields1 "homework_name" = dict_get fields2 "homework_name" ->
  lookup "status" fields1 = Some (JStr code1) ->
  lookup "status" fields2 = Some (JStr code2) ->
  code1 <> code2 ->
  sent (fst (fst (poll_loop timestamp [w1; w2]
                    (state_after timestamp schedule initial_state))))
    = [message1; message2]
  /\ message1 <> message2.
Proof.
  intros Hw1 Hw2 Hcheck1 Hcheck2 Hparse1 Hparse2 Hname Hs1 Hs2 Hne.
  set (st := state_after timestamp schedule initial_state).
  assert (Hrec : forall fields code,
             lookup "status" fields = Some (JStr code) ->
             py_bool (JDict fields) = true).
  { intros [|item fields] code H; [discriminate H | reflexivity]. }
  destruct (formatted_message_is_sent timestamp w1 st response1
              (JDict fields1) message1 (Hw1 _) Hcheck1 (Hrec _ _ Hs1) Hparse1
              (reachable_code timestamp schedule)) as [Hsent1 Hcode1].
  destruct (formatted_message_is_sent timestamp w2 _ response2
              (JDict fields2) message2 (Hw2 _) Hcheck2 (Hrec _ _ Hs2) Hparse2
              Hcode1) as [Hsent2 _].
  split.
  - rewrite (poll_loop_cons timestamp w1 [w2] st). cbv zeta.
    rewrite (poll_loop_cons timestamp w2 []). cbv zeta.
    cbn [fst snd poll_loop loop_ret ret Monad_Loop].
    rewrite !sent_app, Hsent1, Hsent2. reflexivity.
  - destruct (parse_status_returns _ _ Hparse1)
      as (f1 & c1 & t1 & E1 & Hst1 & Hc1 & ->).
    destruct (parse_status_returns _ _ Hparse2)
      as (f2 & c2 & t2 & E2 & Hst2 & Hc2 & ->).
    injection E1 as <-. injection E2 as <-.
    rewrite Hs1 in Hst1. rewrite Hs2 in Hst2.
    injection Hst1 as <-. injection Hst2 as <-.
    rewrite Hname. unfold status_message. intros Heq.
    do 5 apply append_cancel in Heq.
    exact (verdict_texts_differ _ _ _ _ Hc1 Hc2 Hne Heq).
Qed.

End Homework.

(** ** Runs on the sample inputs *)

(** C1. Two consecutive cycles receive the same record, "hw1" with the
    verdict [approved]: the first stores the code [approved], the second
    compares its message with that code, finds them different and sends
    the same message again. *)
Theorem duplicate_verdict_sent_twice :
  let message :=
    status_message repr_elided (JStr "hw1")
      "Работа проверена: ревьюеру всё понравилось. Ура!" in
  let w := answering (api_response 100 [hw1_approved]) in
  last_homework_status
    (state_after practicum_token telegram_chat_id repr_elided decode_raises start_time
       [w] initial_state) = JStr "approved"
  /\ sent (fst (main practicum_token telegram_token telegram_chat_id
                 repr_elided decode_raises
                 client_accepts start_time [w; w]))
     = [message; message].
Proof. split; vm_compute; reflexivity. Qed.

(** C2. A cycle receives the mapping with [current_date] 0 and the
    non-empty [homeworks] list holding "hw1": the key is present, yet the
    validator raises the missing-key error, [last_check_time] stays
    [None] instead of becoming 0, and the next cycle's request carries
    the start time of the process as its cursor. *)
Theorem zero_date_cursor_not_advanced :
  let response := api_response 0 [hw1_approved] in
  let run :=
    poll_cycle practicum_token telegram_chat_id repr_elided decode_raises
      start_time (answering response) initial_state in
  lookup "current_date"
    [("current_date", JInt 0); ("homeworks", JList [hw1_approved])]
    = Some (JInt 0)
  /\ snd (check_response response) = Raises missing_cursor
  /\ last_check_time (snd (fst run)) = JNull
  /\ sent (fst (fst run)) = [diagnostic missing_cursor]
  /\ cursors (fst (fst (poll_cycle practicum_token telegram_chat_id
                          repr_elided decode_raises start_time
                          (answering response) (snd (fst run)))))
     = [JInt start_time].
Proof. repeat split; vm_compute; reflexivity. Qed.

(** C3. A cycle receives the mapping with [current_date] 0 and an empty
    [homeworks] list: the validator raises the missing-key error, the
    notifier is called with its diagnostic and the last error text
    changes. *)
Theorem zero_date_no_work_cycle_notifies :
  let w := answering (api_response 0 []) in
  let run :=
    poll_cycle practicum_token telegram_chat_id repr_elided decode_raises start_time w
      initial_state in
  snd (check_response (api_response 0 [])) = Raises missing_cursor
  /\ sent (fst (fst run)) = [diagnostic missing_cursor]
  /\ last_telegram_message (snd (fst run)) = JStr (diagnostic missing_cursor).
Proof. repeat split; vm_compute; reflexivity. Qed.

(** C5. The key [current_date] is present with the value 0, and the
    validator raises the error that says the key is missing. *)
Theorem zero_date_rejected :
  lookup "current_date" [("current_date", JInt 0); ("homeworks", JList [])]
    = Some (JInt 0)
  /\ snd (check_response
            (JDict [("current_date", JInt 0); ("homeworks", JList [])]))
     = Raises missing_cursor
  /\ exn_str missing_cursor
     = squote ++ "В ответе API нехватает ключа current_date" ++ squote.
Proof. repeat split. Qed.

(** C6, the claim as stated fails: a mapping with [current_date] and no
    [homeworks] key is not taken for "no homework"; the validator raises
    the shape error. *)
Lemma absent_homeworks_rejected :
  lookup "homeworks" [("current_date", JInt 100)] = None
  /\ snd (check_response (JDict [("current_date", JInt 100)]))
     = Raises invalid_shape
  /\ snd (check_response (JDict [("current_date", JInt 100)]))
     <> Returns JNull.
Proof. repeat split. discriminate. Qed.

Lemma homeworks_required_witness :
  py_bool (dict_get [("current_date", JInt 100)] "current_date") = true
  /\ snd (check_response (JDict [("current_date", JInt 100)]))
     = Raises invalid_shape.
Proof.
  split; [reflexivity|].
  exact (proj1 (homeworks_required [("current_date", JInt 100)] eq_refl)
           eq_refl).
Defined.

Lemma cursor_advance_witness :
  let w := answering (api_response 1700000000 [hw1_approved]) in
  let st' :=
    snd (fst (poll_cycle practicum_token telegram_chat_id repr_elided
                decode_raises start_time w initial_state)) in
  last_check_time st' = JInt 1700000000
  /\ forall next : World,
       cursors (fst (fst (poll_cycle practicum_token telegram_chat_id
                            repr_elided decode_raises start_time next st')))
       = [JInt 1700000000].
Proof.
  apply (cursor_advance practicum_token telegram_chat_id repr_elided
           decode_raises start_time
           (answering (api_response 1700000000 [hw1_approved]))
           initial_state
           [("current_date", JInt 1700000000);
            ("homeworks", JList [hw1_approved])]
           (JInt 1700000000) hw1_approved []);
    reflexivity.
Defined.

Lemma parse_status_correct_witness :
  exists message,
    snd (parse_status repr_elided hw1_approved) = Returns message
    /\ contains "hw1" message = true
    /\ contains "Работа проверена: ревьюеру всё понравилось. Ура!" message
       = true.
Proof.
  apply (parse_status_correct repr_elided
           [("homework_name", JStr "hw1"); ("status", JStr "approved")]
           "hw1" "approved").
  - reflexivity.
  - discriminate.
  - reflexivity.
  - reflexivity.
Defined.

Lemma loop_survives_errors_witness :
  In (Log ERROR "Неподходящий http ответ")
     (fst (fst (poll_cycle practicum_token telegram_chat_id repr_elided decode_raises
                  start_time (refusing 500) initial_state))).
Proof.
  apply (loop_survives_errors practicum_token telegram_chat_id repr_elided decode_raises
           start_time)
    with (e := Exn HttpCodeIsNot200 "Неподходящий http ответ").
  reflexivity.
Defined.

(** C7, the claim as stated fails: after a first refused request, the
    second and the third are two consecutive cycles raising the same
    error, and the notifier is not called in either. *)
Lemma repeated_error_pair_unsent :
  let e := Exn HttpCodeIsNot200 "Неподходящий http ответ" in
  let st1 :=
    state_after practicum_token telegram_chat_id repr_elided decode_raises start_time
      [refusing 500] initial_state in
  let st2 :=
    state_after practicum_token telegram_chat_id repr_elided decode_raises start_time
      [refusing 500] st1 in
  snd (try_block practicum_token telegram_chat_id repr_elided decode_raises start_time
         (refusing 500) st1) = Raises e
  /\ snd (try_block practicum_token telegram_chat_id repr_elided decode_raises start_time
            (refusing 500) st2) = Raises e
  /\ sent (fst (fst (poll_loop practicum_token telegram_chat_id repr_elided decode_raises
                       start_time [refusing 500; refusing 500] st1))) = [].
Proof. repeat split; vm_compute; reflexivity. Qed.

Lemma error_suppression_witness :
  let e := Exn HttpCodeIsNot200 "Неподходящий http ответ" in
  let e' := Exn RequestException "Connection timed out" in
  let st1 :=
    snd (fst (poll_cycle practicum_token telegram_chat_id repr_elided decode_raises
                start_time (refusing 500) initial_state)) in
  sent (fst (fst (poll_loop practicum_token telegram_chat_id repr_elided decode_raises
                    start_time [refusing 500; refusing 500] initial_state)))
    = [diagnostic e]
  /\ sent (fst (fst (poll_cycle practicum_token telegram_chat_id repr_elided decode_raises
                       start_time (unreachable "Connection timed out") st1)))
     = [diagnostic e'].
Proof.
  intros e e' st1. split.
  - apply (error_suppression practicum_token telegram_chat_id repr_elided decode_raises
             start_time (refusing 500) (refusing 500) initial_state e e);
      reflexivity.
  - apply (error_suppression practicum_token telegram_chat_id repr_elided decode_raises
             start_time (refusing 500) (unreachable "Connection timed out")
             initial_state e e');
      [reflexivity | reflexivity | discriminate].
Defined.

Lemma error_text_outlives_success_witness :
  sent (fst (fst (poll_cycle practicum_token telegram_chat_id repr_elided decode_raises
                    start_time (refusing 500)
                    (state_after practicum_token telegram_chat_id repr_elided decode_raises
                       start_time
                       [refusing 500;
                        answering (api_response 100 [hw1_approved]);
                        answering (api_response 200 [])]
                       initial_state)))) = [].
Proof.
  apply (error_text_outlives_success practicum_token telegram_chat_id
           repr_elided decode_raises start_time)
    with (e0 := Exn HttpCodeIsNot200 "Неподходящий http ответ")
         (e1 := Exn HttpCodeIsNot200 "Неподходящий http ответ").
  - reflexivity.
  - repeat split.
  - reflexivity.
  - reflexivity.
Defined.

(** ** Further runs on the sample inputs *)

Lemma main_requires_tokens_witness :
  let schedule := [answering (api_response 100 [hw1_approved])] in
  main None telegram_token telegram_chat_id repr_elided decode_raises
    client_accepts start_time schedule
  = ([Log DEBUG "Запущена проверка необходимых переменных окружения";
      Log CRITICAL "Отсутствуют переменные окружения"],
     Raises missing_environment)
  /\ main practicum_token telegram_token telegram_chat_id repr_elided
       decode_raises client_rejects start_time schedule
     = ([Log DEBUG "Запущена проверка необходимых переменных окружения"],
        Raises (Exn TelegramError "Invalid token"))
  /\ snd (main practicum_token telegram_token telegram_chat_id repr_elided
            decode_raises client_accepts start_time schedule)
     = Returns tt.
Proof.
  intros schedule. split; [|split].
  - apply (main_requires_tokens None telegram_token telegram_chat_id
             repr_elided decode_raises client_accepts). reflexivity.
  - apply (main_requires_tokens practicum_token telegram_token
             telegram_chat_id repr_elided decode_raises client_rejects);
      reflexivity.
  - apply (main_requires_tokens practicum_token telegram_token
             telegram_chat_id repr_elided decode_raises client_accepts);
      reflexivity.
Defined.

Lemma get_api_answer_outcomes_witness :
  snd (get_api_answer practicum_token decode_raises
         {| http := fun _ => Responds 200 None; chat := fun _ => Delivered |}
         (JInt start_time))
  = Raises (decode_raises "Ошибка при десериализации JSON").
Proof.
  apply (get_api_answer_outcomes practicum_token decode_raises
           {| http := fun _ => Responds 200 None;
              chat := fun _ => Delivered |}
           (JInt start_time)).
Defined.

Lemma missing_cursor_iff_witness :
  snd (check_response (JDict [("homeworks", JList [])])) = Raises missing_cursor.
Proof.
  apply (missing_cursor_iff [("homeworks", JList [])]). reflexivity.
Defined.

Lemma check_response_wants_mapping_witness :
  snd (check_response (JList [hw1_approved])) = Raises not_a_mapping.
Proof.
  apply (check_response_wants_mapping (JList [hw1_approved])).
  intros fields. discriminate.
Defined.

Lemma parse_status_returns_iff_witness :
  snd (parse_status repr_elided hw1_reviewing)
  = Returns (status_message repr_elided (JStr "hw1")
               "Работа взята на проверку ревьюером.").
Proof.
  apply (parse_status_returns_iff repr_elided hw1_reviewing).
  exists [("homework_name", JStr "hw1"); ("status", JStr "reviewing")],
    "reviewing", "Работа взята на проверку ревьюером.".
  repeat split.
Defined.

Lemma parse_status_incomplete_iff_witness :
  snd (parse_status repr_elided (JDict [("status", JStr "graded")]))
  = Raises incomplete_record.
Proof.
  apply (parse_status_incomplete_iff repr_elided [("status", JStr "graded")]).
  left. reflexivity.
Defined.

Lemma parse_status_odd_status_witness :
  snd (parse_status repr_elided
         (JDict [("homework_name", JStr "hw1");
                 ("status", JList [JStr "approved"])]))
  = Raises (Exn TypeError ("unhashable type: " ++ squote ++ "list" ++ squote)).
Proof.
  apply (parse_status_odd_status repr_elided
           [("homework_name", JStr "hw1");
            ("status", JList [JStr "approved"])]); reflexivity.
Defined.

Lemma falsy_homework_ignored_witness :
  let w := answering (api_response 100 [JDict []]) in
  snd (fst (poll_cycle practicum_token telegram_chat_id repr_elided decode_raises
              start_time w initial_state)) = initial_state
  /\ sent (fst (fst (poll_cycle practicum_token telegram_chat_id repr_elided decode_raises
                       start_time w initial_state))) = [].
Proof.
  apply (falsy_homework_ignored practicum_token telegram_chat_id repr_elided decode_raises
           start_time (answering (api_response 100 [JDict []])) initial_state
           (api_response 100 [JDict []]) (JDict []));
    reflexivity.
Defined.

Lemma format_error_cycle_witness :
  let w := answering (api_response 100 [hw1_graded]) in
  let st' :=
    snd (fst (poll_cycle practicum_token telegram_chat_id repr_elided decode_raises
                start_time w initial_state)) in
  last_check_time st' = JInt 100
  /\ last_homework_status st' = JNull
  /\ last_telegram_message st' = JStr (diagnostic unknown_verdict)
  /\ sent (fst (fst (poll_cycle practicum_token telegram_chat_id repr_elided decode_raises
                       start_time w initial_state)))
     = [diagnostic unknown_verdict].
Proof.
  apply (format_error_cycle practicum_token telegram_chat_id repr_elided decode_raises
           start_time (answering (api_response 100 [hw1_graded]))
           initial_state (api_response 100 [hw1_graded]) hw1_graded
           (JInt 100) unknown_verdict);
    reflexivity.
Defined.

Lemma failed_poll_keeps_cursor_witness :
  let st' :=
    snd (fst (poll_cycle practicum_token telegram_chat_id repr_elided decode_raises
                start_time (refusing 500) initial_state)) in
  last_check_time st' = JNull
  /\ forall next : World,
       cursors (fst (fst (poll_cycle practicum_token telegram_chat_id
                            repr_elided decode_raises start_time next st')))
       = [JInt start_time].
Proof.
  apply (failed_poll_keeps_cursor practicum_token telegram_chat_id repr_elided decode_raises
           start_time (refusing 500) initial_state bad_status).
  left. reflexivity.
Defined.

Lemma cursor_stays_set_witness :
  let st :=
    state_after practicum_token telegram_chat_id repr_elided decode_raises start_time
      [answering (api_response 100 [hw1_approved])] initial_state in
  py_bool
    (last_check_time
       (state_after practicum_token telegram_chat_id repr_elided decode_raises start_time
          [refusing 500; answering (api_response 200 [])] st)) = true.
Proof.
  apply (cursor_stays_set practicum_token telegram_chat_id repr_elided decode_raises
           start_time [refusing 500; answering (api_response 200 [])]).
  reflexivity.
Defined.

Lemma delivery_outcome_forgotten_witness :
  snd (fst (poll_cycle practicum_token telegram_chat_id repr_elided decode_raises
              start_time (refusing 500) initial_state))
  = snd (fst (poll_cycle practicum_token telegram_chat_id repr_elided decode_raises
                start_time (refusing_unheard 500 "Forbidden") initial_state)).
Proof.
  apply (delivery_outcome_forgotten practicum_token telegram_chat_id
           repr_elided decode_raises start_time (refusing 500)
           (refusing_unheard 500 "Forbidden") initial_state).
  reflexivity.
Defined.

Lemma http_errors_indistinguishable_witness :
  sent (fst (fst (poll_cycle practicum_token telegram_chat_id repr_elided decode_raises
                    start_time (refusing 404)
                    (snd (fst (poll_cycle practicum_token telegram_chat_id
                                 repr_elided decode_raises start_time (refusing 500)
                                 initial_state)))))) = [].
Proof.
  apply (http_errors_indistinguishable practicum_token telegram_chat_id
           repr_elided decode_raises start_time (refusing 500) (refusing 404) initial_state
           500 404 None None);
    try (intros cursor; reflexivity); discriminate.
Defined.

Lemma verdict_change_notified_witness :
  sent (fst (fst (poll_loop practicum_token telegram_chat_id repr_elided decode_raises
                    start_time
                    [answering (api_response 100 [hw1_reviewing]);
                     answering (api_response 200 [hw1_approved])]
                    initial_state)))
  = [status_message repr_elided (JStr "hw1")
       "Работа взята на проверку ревьюером.";
     status_message repr_elided (JStr "hw1")
       "Работа проверена: ревьюеру всё понравилось. Ура!"].
Proof.
  apply (verdict_change_notified practicum_token telegram_chat_id repr_elided decode_raises
           start_time []
           (answering (api_response 100 [hw1_reviewing]))
           (answering (api_response 200 [hw1_approved]))
           (api_response 100 [hw1_reviewing])
           (api_response 200 [hw1_approved])
           [("homework_name", JStr "hw1"); ("status", JStr "reviewing")]
           [("homework_name", JStr "hw1"); ("status", JStr "approved")]
           "reviewing" "approved");
    try (intros cursor; reflexivity); try reflexivity; discriminate.
Defined.
